(** * EscrowService: the escrow state machine, its views and the expiry sweep

    A shallow embedding of [escrow/models.py], [escrow/permissions.py],
    [escrow/serializers.py], [escrow/views.py] and [escrow/tasks.py].

    - The [escrow] table is a finite map from primary keys to rows.
    - A model instance ([self] in the Python methods) is a primary key
      together with an in-memory copy of the columns; it may be out of date
      with respect to the table.
    - Model methods take the instance and the table and return the raised
      exception (if any), the mutated instance and the new table.
    - Timestamps are integers (microseconds), amounts are integers
      (hundredths, [decimal_places=2]). *)

From stdpp Require Import gmap strings list fin_maps sorting.
From Stdlib Require Import ZArith Lia.

Local Open Scope string_scope.
Local Open Scope Z_scope.

(** ** Data model (models.py) *)

Definition Time := Z.
Definition Decimal := Z.

(** [Escrow.State] *)
Inductive State := CREATED | FUNDED | RELEASED | REFUNDED | EXPIRED.

#[global] Instance State_eq_dec : EqDecision State.
Proof. solve_decision. Defined.

(** The terminal states of the docstring
    [CREATED -> FUNDED -> [RELEASED | REFUNDED | EXPIRED]]. *)
Definition is_terminal (s : State) : bool :=
  match s with
  | RELEASED | REFUNDED | EXPIRED => true
  | CREATED | FUNDED => false
  end.

(** The columns of one row of the table (every model field but [id]). *)
Record Row := mkRow {
  buyer_id : string;
  seller_id : string;
  amount : Decimal;
  currency : string;
  state : State;
  expires_at : option Time;
  created_at : Time;
  updated_at : Time;
  funded_at : option Time;
  released_at : option Time;
  refunded_at : option Time;
  expired_at : option Time;
  version : Z
}.

#[global] Instance Row_eq_dec : EqDecision Row.
Proof. solve_decision. Defined.

(** A model instance: [self.pk] and the attribute values it holds. *)
Record Escrow := mkEscrow {
  pk : Z;
  row :> Row
}.

#[global] Instance Escrow_eq_dec : EqDecision Escrow.
Proof. solve_decision. Defined.

(** The table, keyed by primary key. *)
Abbreviation Table := (gmap Z Row).

(** *** Attribute assignment *)

Definition set_state (v : State) (r : Row) : Row :=
  mkRow (buyer_id r) (seller_id r) (amount r) (currency r) v (expires_at r)
        (created_at r) (updated_at r) (funded_at r) (released_at r)
        (refunded_at r) (expired_at r) (version r).

Definition set_expires_at (v : option Time) (r : Row) : Row :=
  mkRow (buyer_id r) (seller_id r) (amount r) (currency r) (state r) v
        (created_at r) (updated_at r) (funded_at r) (released_at r)
        (refunded_at r) (expired_at r) (version r).

Definition set_updated_at (v : Time) (r : Row) : Row :=
  mkRow (buyer_id r) (seller_id r) (amount r) (currency r) (state r) (expires_at r)
        (created_at r) v (funded_at r) (released_at r)
        (refunded_at r) (expired_at r) (version r).

Definition set_funded_at (v : option Time) (r : Row) : Row :=
  mkRow (buyer_id r) (seller_id r) (amount r) (currency r) (state r) (expires_at r)
        (created_at r) (updated_at r) v (released_at r)
        (refunded_at r) (expired_at r) (version r).

Definition set_released_at (v : option Time) (r : Row) : Row :=
  mkRow (buyer_id r) (seller_id r) (amount r) (currency r) (state r) (expires_at r)
        (created_at r) (updated_at r) (funded_at r) v
        (refunded_at r) (expired_at r) (version r).

Definition set_refunded_at (v : option Time) (r : Row) : Row :=
  mkRow (buyer_id r) (seller_id r) (amount r) (currency r) (state r) (expires_at r)
        (created_at r) (updated_at r) (funded_at r) (released_at r)
        v (expired_at r) (version r).

Definition set_expired_at (v : option Time) (r : Row) : Row :=
  mkRow (buyer_id r) (seller_id r) (amount r) (currency r) (state r) (expires_at r)
        (created_at r) (updated_at r) (funded_at r) (released_at r)
        (refunded_at r) v (version r).

Definition set_version (v : Z) (r : Row) : Row :=
  mkRow (buyer_id r) (seller_id r) (amount r) (currency r) (state r) (expires_at r)
        (created_at r) (updated_at r) (funded_at r) (released_at r)
        (refunded_at r) (expired_at r) v.

(** [self.<attr> = ...]: assignment on the instance keeps [self.pk]. *)
Definition assign (f : Row → Row) (self : Escrow) : Escrow :=
  mkEscrow (pk self) (f (row self)).

(** ** Exceptions and results *)

Inductive Exn :=
| ValueError (msg : string)
| DatabaseError (msg : string)
| DoesNotExist
| PermissionDenied
| ValidationError (field msg : string).

Inductive Result (A : Type) :=
| Ok (a : A)
| Raise (e : Exn).
Arguments Ok {A} a.
Arguments Raise {A} e.

(** ** The ORM operations the code uses *)

(** [Escrow.objects.get(pk=k)]: the instance built from the stored row. *)
Definition get (k : Z) (db : Table) : Result Escrow :=
  match db !! k with
  | Some r => Ok (mkEscrow k r)
  | None => Raise DoesNotExist
  end.

(** [Escrow.objects.filter(pk=k, <cond>).update(<assignments>)]: one
    conditional UPDATE statement; the result is the number of rows it
    matched (0 or 1, the primary key being unique). *)
Definition update_where (k : Z) (cond : Row → bool) (assignments : Row → Row)
    (db : Table) : nat * Table :=
  match db !! k with
  | Some r => if cond r then (1%nat, <[k := assignments r]> db) else (0%nat, db)
  | None => (0%nat, db)
  end.

(** [self.refresh_from_db()]: reload every attribute from the row. *)
Definition refresh_from_db (self : Escrow) (db : Table) : Result Escrow :=
  get (pk self) db.

(** The field names that [save(update_fields=...)] is called with. *)
Inductive Field :=
| f_state | f_version | f_funded_at | f_expires_at | f_updated_at.

#[global] Instance Field_eq_dec : EqDecision Field.
Proof. solve_decision. Defined.

Definition write_field (f : Field) (self : Row) (stored : Row) : Row :=
  match f with
  | f_state => set_state (state self) stored
  | f_version => set_version (version self) stored
  | f_funded_at => set_funded_at (funded_at self) stored
  | f_expires_at => set_expires_at (expires_at self) stored
  | f_updated_at => set_updated_at (updated_at self) stored
  end.

(** [self.save(update_fields=fields)]: [updated_at] is an [auto_now] field,
    so it takes the clock's value when it is among [fields]; the listed
    columns of the row with [self.pk] are overwritten, with no condition
    on the stored values. Django raises [DatabaseError] when the UPDATE
    matches no row. *)
Definition save (self : Escrow) (update_fields : list Field) (clock : Time)
    (db : Table) : Result unit * Escrow * Table :=
  let self :=
    if bool_decide (f_updated_at ∈ update_fields)
    then assign (set_updated_at clock) self else self in
  match db !! pk self with
  | Some stored =>
      (Ok (), self,
       <[pk self := foldr (λ f acc, write_field f self acc) stored update_fields]> db)
  | None =>
      (Raise (DatabaseError "Save with update_fields did not affect any rows."),
       self, db)
  end.

(** [@transaction.atomic]: an exception leaving the block rolls the table
    back to what it was on entry. *)
Definition atomic {A S : Type} (body : Table → Result A * S * Table)
    (db : Table) : Result A * S * Table :=
  match body db with
  | (Raise e, s, _) => (Raise e, s, db)
  | (Ok a, s, db') => (Ok a, s, db')
  end.

(** [settings]: [ESCROW_DEFAULT_EXPIRATION_SECONDS] may be absent. *)
Record Settings := mkSettings {
  ESCROW_DEFAULT_EXPIRATION_SECONDS : option Z
}.

(** [timezone.timedelta(seconds=s)] in microseconds. *)
Definition timedelta (seconds : Z) : Z := seconds * 1000000.

(** [now or timezone.now()] *)
Definition now_or (now : option Time) (clock : Time) : Time :=
  match now with
  | Some t => t
  | None => clock
  end.

(** ** State transitions (models.py) *)

(** [Escrow._set_state]: no change when the state is already [new_state];
    otherwise the state is replaced and the version bumped (the logging
    call has no effect on the instance or the table). *)
Definition _set_state (self : Escrow) (new_state : State) : Escrow :=
  let old_state := state self in
  if bool_decide (old_state = new_state) then self
  else
    let self := assign (set_state new_state) self in
    assign (set_version (version self + 1)) self.

(** [Escrow.fund]: CREATED -> FUNDED. *)
Definition fund (cfg : Settings) (self : Escrow) (now : option Time)
    (clock : Time) : Table → Result unit * Escrow * Table :=
  atomic (λ db,
    if bool_decide (state self ≠ CREATED) then
      (Raise (ValueError "Escrow can only be funded from CREATED state."), self, db)
    else
      let now := now_or now clock in
      let self := assign (set_funded_at (Some now)) self in
      let seconds := default (24 * 3600) (ESCROW_DEFAULT_EXPIRATION_SECONDS cfg) in
      let self := assign (set_expires_at (Some (now + timedelta seconds))) self in
      let self := _set_state self FUNDED in
      save self [f_state; f_version; f_funded_at; f_expires_at; f_updated_at] clock db).

(** The filter shared by the three conditional updates:
    [filter(pk=self.pk, state=FUNDED, version=self.version)]. *)
Definition still_funded_at (self : Escrow) (r : Row) : bool :=
  bool_decide (state r = FUNDED) && bool_decide (version r = version self).

(** [Escrow.release]: FUNDED -> RELEASED. *)
Definition release (self : Escrow) (now : option Time) (clock : Time)
    : Table → Result unit * Escrow * Table :=
  atomic (λ db,
    if bool_decide (state self ≠ FUNDED) then
      (Raise (ValueError "Escrow can only be released from FUNDED state."), self, db)
    else
      let now := now_or now clock in
      let '(updated, db') :=
        update_where (pk self) (still_funded_at self)
          (λ r, set_updated_at now
                  (set_version (version r + 1)
                     (set_released_at (Some now) (set_state RELEASED r)))) db in
      if bool_decide (updated = 0%nat) then
        (Raise (ValueError "Escrow cannot be released (state changed by concurrent action)."),
         self, db')
      else
        match refresh_from_db self db' with
        | Ok self' => (Ok (), self', db')
        | Raise e => (Raise e, self, db')
        end).

(** [Escrow.refund]: FUNDED -> REFUNDED. *)
Definition refund (self : Escrow) (now : option Time) (clock : Time)
    : Table → Result unit * Escrow * Table :=
  atomic (λ db,
    if bool_decide (state self ≠ FUNDED) then
      (Raise (ValueError "Escrow can only be refunded from FUNDED state."), self, db)
    else
      let now := now_or now clock in
      let '(updated, db') :=
        update_where (pk self) (still_funded_at self)
          (λ r, set_updated_at now
                  (set_version (version r + 1)
                     (set_refunded_at (Some now) (set_state REFUNDED r)))) db in
      if bool_decide (updated = 0%nat) then
        (Raise (ValueError "Escrow cannot be refunded (state changed by concurrent action)."),
         self, db')
      else
        match refresh_from_db self db' with
        | Ok self' => (Ok (), self', db')
        | Raise e => (Raise e, self, db')
        end).

(** [Escrow.expire]: FUNDED -> EXPIRED; returns silently in every other
    case. *)
Definition expire (self : Escrow) (now : option Time) (clock : Time)
    : Table → Result unit * Escrow * Table :=
  atomic (λ db,
    if bool_decide (state self ≠ FUNDED) then
      (Ok (), self, db)
    else
      let now := now_or now clock in
      let '(updated, db') :=
        update_where (pk self) (still_funded_at self)
          (λ r, set_updated_at now
                  (set_version (version r + 1)
                     (set_expired_at (Some now) (set_state EXPIRED r)))) db in
      if bool_decide (updated = 0%nat) then
        (Ok (), self, db')
      else
        match refresh_from_db self db' with
        | Ok self' => (Ok (), self', db')
        | Raise e => (Raise e, self, db')
        end).

(** ** Authentication and permissions (auth.py, permissions.py) *)

(** [SimpleUser]: built from the request headers; [is_authenticated] is
    always true. *)
Record SimpleUser := mkUser {
  id : string;
  role : string
}.

Definition is_authenticated (u : SimpleUser) : bool := true.

Record Request := mkRequest {
  user : SimpleUser;
  method : string
}.

(** [permissions.SAFE_METHODS] *)
Definition SAFE_METHODS : list string := ["GET"; "HEAD"; "OPTIONS"].

(** The interface of [permissions.BasePermission]; both checks answer
    true unless a class overrides them. *)
Record Permission := mkPermission {
  has_permission : Request → bool;
  has_object_permission : Request → Escrow → bool
}.

Definition IsEscrowParticipant : Permission :=
  {| has_permission := λ _, true;
     has_object_permission := λ request obj,
       let user := user request in
       if negb (is_authenticated user) then false
       else if bool_decide (role user = "buyer") then
         bool_decide (buyer_id obj = id user)
       else if bool_decide (role user = "seller") then
         if bool_decide (method request ∈ SAFE_METHODS) then
           bool_decide (seller_id obj = id user)
         else false
       else false |}.

Definition BuyerOnly : Permission :=
  {| has_permission := λ request,
       let user := user request in
       is_authenticated user && bool_decide (role user = "buyer");
     has_object_permission := λ _ _, true |}.

(** [APIView.check_permissions] and [APIView.check_object_permissions]:
    the first refusal raises [PermissionDenied]. *)
Definition check_permissions (classes : list Permission) (request : Request) : bool :=
  forallb (λ p, has_permission p request) classes.

Definition check_object_permissions (classes : list Permission)
    (request : Request) (obj : Escrow) : bool :=
  forallb (λ p, has_object_permission p request obj) classes.

(** ** Views (views.py) *)

Inductive Body :=
| Data (instance : Escrow)
| Detail (detail : string).

Record Response := mkResponse {
  body : Body;
  status : Z
}.

Definition HTTP_200_OK : Z := 200.
Definition HTTP_201_CREATED : Z := 201.
Definition HTTP_400_BAD_REQUEST : Z := 400.
Definition HTTP_403_FORBIDDEN : Z := 403.
Definition HTTP_404_NOT_FOUND : Z := 404.
Definition HTTP_409_CONFLICT : Z := 409.
Definition HTTP_500_INTERNAL_SERVER_ERROR : Z := 500.

(** The status a client sees. A view's own [Response] keeps its status;
    of the exceptions that can leave these views the framework's handler
    turns [PermissionDenied] into 403 and a serializer's [ValidationError]
    into 400; [DoesNotExist], [ValueError] and [DatabaseError] are not
    API exceptions and surface as a server error. *)
Definition client_status (r : Result Response) : Z :=
  match r with
  | Ok resp => status resp
  | Raise PermissionDenied => HTTP_403_FORBIDDEN
  | Raise (ValidationError _ _) => HTTP_400_BAD_REQUEST
  | Raise DoesNotExist | Raise (ValueError _) | Raise (DatabaseError _) =>
      HTTP_500_INTERNAL_SERVER_ERROR
  end.

(** [permission_classes=[IsEscrowParticipant, BuyerOnly]] of the three
    actions. *)
Definition action_permission_classes : list Permission :=
  [IsEscrowParticipant; BuyerOnly].

(** [Escrow.objects.select_for_update(nowait=True).get(pk=pk)]: [held] is
    the set of rows locked by other transactions at that moment; a held
    row makes the statement fail at once with a [DatabaseError]. *)
Definition select_for_update_nowait_get (k : Z) (held : gset Z) (db : Table)
    : Result Escrow :=
  match get k db with
  | Ok escrow =>
      if bool_decide (k ∈ held)
      then Raise (DatabaseError "could not obtain lock on row")
      else Ok escrow
  | Raise e => Raise e
  end.

Definition ModelMethod : Type :=
  Escrow → option Time → Time → Table → Result unit * Escrow * Table.

(** What the three actions do once [escrow] is loaded: the object
    permission check, the model method under [try ... except ValueError],
    and the outer [except DatabaseError]. The method is given the view's
    [now] as its clock as well: the later reading that [save] takes for
    [updated_at] is not told apart from it. *)
Definition act_on_loaded (transition : ModelMethod) (request : Request)
    (escrow : Escrow) (now : Time) (db : Table) : Result Response * Table :=
  if negb (check_object_permissions action_permission_classes request escrow) then
    (Raise PermissionDenied, db)
  else
    match transition escrow (Some now) now db with
    | (Raise (ValueError exc), _, db') =>
        (Ok (mkResponse (Detail exc) HTTP_400_BAD_REQUEST), db')
    | (Raise (DatabaseError _), _, _) =>
        (Ok (mkResponse (Detail "Resource busy, try again.") HTTP_409_CONFLICT), db)
    | (Raise e, _, _) => (Raise e, db)
    | (Ok _, escrow', db') => (Ok (mkResponse (Data escrow') HTTP_200_OK), db')
    end.

(** The common shape of [EscrowViewSet.fund], [.release] and [.refund]:
    the view-level permission check, then one non-blocking locked load and
    the transition, all inside [transaction.atomic()]. *)
Definition transition_action (transition : ModelMethod) (request : Request)
    (pk : Z) (now : Time) (held : gset Z) (db : Table) : Result Response * Table :=
  if negb (check_permissions action_permission_classes request) then
    (Raise PermissionDenied, db)
  else
    match select_for_update_nowait_get pk held db with
    | Ok escrow => act_on_loaded transition request escrow now db
    | Raise (DatabaseError _) =>
        (Ok (mkResponse (Detail "Resource busy, try again.") HTTP_409_CONFLICT), db)
    | Raise e => (Raise e, db)
    end.

(** [EscrowViewSet.fund] *)
Definition view_fund (cfg : Settings) : Request → Z → Time → gset Z → Table →
    Result Response * Table :=
  transition_action (fund cfg).

(** [EscrowViewSet.release] *)
Definition view_release : Request → Z → Time → gset Z → Table →
    Result Response * Table :=
  transition_action release.

(** [EscrowViewSet.refund] *)
Definition view_refund : Request → Z → Time → gset Z → Table →
    Result Response * Table :=
  transition_action refund.

(** ** Creation (serializers.py, views.py) *)

(** [validated_data]: the writable serializer fields ([seller_id],
    [amount], [currency]); [buyer_id] is kept as a possible key because
    [create] pops it. Neither the model field nor the serializer declares
    a validator on [amount], so any decimal of the field's size arrives
    here, negative ones and zero included. *)
Record ValidatedData := mkValidated {
  vd_seller_id : option string;
  vd_buyer_id : option string;
  vd_amount : Decimal;
  vd_currency : option string
}.

(** The next value of the [id] sequence: one more than every stored key. *)
Definition next_pk (db : Table) : Z :=
  1 + foldr Z.max 0 (map_to_list db).*1.

(** [Escrow.objects.create(buyer_id=..., seller_id=..., amount=...,
    currency=...)]: the remaining columns take the model's defaults.
    [created_at] and [updated_at] are given the one clock value; the two
    readings taken for them are not told apart. *)
Definition objects_create (buyer seller : string) (amt : Decimal)
    (cur : option string) (clock : Time) (db : Table) : Escrow * Table :=
  let r := {| buyer_id := buyer; seller_id := seller; amount := amt;
              currency := default "USD" cur; state := CREATED;
              expires_at := None; created_at := clock; updated_at := clock;
              funded_at := None; released_at := None; refunded_at := None;
              expired_at := None; version := 0 |} in
  let k := next_pk db in
  (mkEscrow k r, <[k := r]> db).

(** [EscrowSerializer.create] *)
Definition EscrowSerializer_create (validated_data : ValidatedData)
    (request : Request) (clock : Time) (db : Table) : Result Escrow * Table :=
  let user := user request in
  let buyer_id := id user in
  match vd_seller_id validated_data with
  | None | Some "" =>
      (Raise (ValidationError "seller_id" "This field is required."), db)
  | Some seller_id =>
      let '(escrow, db') :=
        objects_create buyer_id seller_id (vd_amount validated_data)
          (vd_currency validated_data) clock db in
      (Ok escrow, db')
  end.

(** [EscrowViewSet.create]: [get_permissions] answers [[BuyerOnly()]] for
    this action; [perform_create] calls [serializer.save()]. *)
Definition view_create (request : Request) (validated_data : ValidatedData)
    (clock : Time) (db : Table) : Result Response * Table :=
  if negb (check_permissions [BuyerOnly] request) then (Raise PermissionDenied, db)
  else
    match EscrowSerializer_create validated_data request clock db with
    | (Ok escrow, db') => (Ok (mkResponse (Data escrow) HTTP_201_CREATED), db')
    | (Raise e, db') => (Raise e, db')
    end.

(** ** The expiry sweep (tasks.py) *)

(** [filter(state=FUNDED, expires_at__lte=now)]; a NULL [expires_at]
    never matches. *)
Definition eligible (now : Time) (r : Row) : bool :=
  bool_decide (state r = FUNDED) &&
  match expires_at r with
  | Some t => bool_decide (t ≤ now)%Z
  | None => false
  end.

Definition batch_size : nat := 100.

(** [order_by("id")] *)
Definition by_id (a b : Escrow) : Prop := (pk a ≤ pk b)%Z.

#[global] Instance by_id_dec : RelDecision by_id.
Proof. intros a b. unfold by_id. apply _. Defined.

(** The [candidates] query: matching rows ordered by id, first
    [batch_size] of them. *)
Definition candidates (now : Time) (db : Table) : list Escrow :=
  take batch_size
    (merge_sort by_id
       ((λ kr, mkEscrow kr.1 kr.2) <$>
          filter (λ kr, Is_true (eligible now kr.2)) (map_to_list db))).

(** The body of [for escrow in candidates]: reload the row under its lock
    (a blocking [select_for_update], so other holders are waited for),
    skip it when it is no longer FUNDED, otherwise expire it and count
    it. *)
Definition sweep_body (now : Time) (escrow_pk : Z) (expired_count : nat)
    (db : Table) : Result nat * Table :=
  match get escrow_pk db with
  | Raise e => (Raise e, db)
  | Ok locked =>
      if bool_decide (state locked ≠ FUNDED) then (Ok expired_count, db)
      else
        match expire locked (Some now) now db with
        | (Raise e, _, _) => (Raise e, db)
        | (Ok _, _, db') => (Ok (expired_count + 1)%nat, db')
        end
  end.

Fixpoint for_each_candidate (now : Time) (cands : list Escrow)
    (expired_count : nat) (db : Table) : Result nat * Table :=
  match cands with
  | [] => (Ok expired_count, db)
  | escrow :: rest =>
      match sweep_body now (pk escrow) expired_count db with
      | (Ok expired_count', db') => for_each_candidate now rest expired_count' db'
      | (Raise e, db') => (Raise e, db')
      end
  end.

(** [while True]: one batch per iteration until the query is empty.
    [fuel] bounds the number of iterations; [None] means it ran out. *)
Fixpoint sweep_loop (fuel : nat) (now : Time) (expired_count : nat)
    (db : Table) : option (Result nat * Table) :=
  match fuel with
  | O => None
  | S fuel' =>
      match candidates now db with
      | [] => Some (Ok expired_count, db)
      | cands =>
          match for_each_candidate now cands expired_count db with
          | (Ok expired_count', db') => sweep_loop fuel' now expired_count' db'
          | (Raise e, db') => Some (Raise e, db')
          end
      end
  end.

(** [expire_funded_escrows]: [now] is read from the clock once. *)
Definition expire_funded_escrows (fuel : nat) (clock : Time) (db : Table)
    : option (Result nat * Table) :=
  let now := clock in
  sweep_loop fuel now 0%nat db.

(** ** Header authentication (auth.py) *)

(** [str.lower()] on one character of a header value (code points below
    256): the capital letters A-Z and the accented capitals of Latin-1
    move up by 32, everything else stays. *)
Definition lower_char (c : Ascii.ascii) : Ascii.ascii :=
  let n := Ascii.nat_of_ascii c in
  if ((65 <=? n)%nat && (n <=? 90)%nat)
     || ((192 <=? n)%nat && (n <=? 222)%nat && negb (n =? 215)%nat)
  then Ascii.ascii_of_nat (n + 32) else c.

Fixpoint lower (s : string) : string :=
  match s with
  | EmptyString => EmptyString
  | String c s' => String (lower_char c) (lower s')
  end.

Definition header_user_id : string := "HTTP_X_USER_ID".
Definition header_user_role : string := "HTTP_X_USER_ROLE".

Inductive Authentication :=
| Authenticated (user : SimpleUser)
| AuthenticationFailed (detail : string).

(** [HeaderUserAuthentication.authenticate]: [META] is [request.META]; a
    missing header reads as [None], and [None] and the empty string are
    both refused by [not user_id or not role]. *)
Definition authenticate (META : gmap string string) : Authentication :=
  let user_id := META !! header_user_id in
  let role := META !! header_user_role in
  match user_id, role with
  | Some user_id, Some role =>
      if bool_decide (user_id = "") || bool_decide (role = "") then
        AuthenticationFailed "Missing X-User-Id or X-User-Role header."
      else
        let role := lower role in
        if bool_decide (role ∉ ["buyer"; "seller"]) then
          AuthenticationFailed "Invalid X-User-Role. Must be 'buyer' or 'seller'."
        else Authenticated (mkUser user_id role)
  | _, _ => AuthenticationFailed "Missing X-User-Id or X-User-Role header."
  end.

(** ** Visibility (views.py) *)

(** [EscrowViewSet.get_queryset]: the rows a user may list or retrieve,
    as the sub-table the filter selects. *)
Definition get_queryset (request : Request) (db : Table) : Table :=
  let user := user request in
  let base_qs := db in
  if negb (is_authenticated user) then ∅
  else if bool_decide (role user = "buyer") then
    filter (λ kr : Z * Row, buyer_id kr.2 = id user) base_qs
  else if bool_decide (role user = "seller") then
    filter (λ kr : Z * Row, seller_id kr.2 = id user) base_qs
  else ∅.

(** [EscrowViewSet.get_permissions]: [create] is buyer-only, every other
    action uses the view's [permission_classes] (which the [@action]
    decorator sets for fund, release and refund). *)
Definition get_permissions (action : string) (permission_classes : list Permission)
    : list Permission :=
  if bool_decide (action = "create") then [BuyerOnly] else permission_classes.

(** * Vocabulary of the statements *)

(** ** The rows the committed transitions write *)

Definition released_row (now : Time) (r : Row) : Row :=
  set_updated_at now
    (set_version (version r + 1) (set_released_at (Some now) (set_state RELEASED r))).

Definition refunded_row (now : Time) (r : Row) : Row :=
  set_updated_at now
    (set_version (version r + 1) (set_refunded_at (Some now) (set_state REFUNDED r))).

Definition expired_row (now : Time) (r : Row) : Row :=
  set_updated_at now
    (set_version (version r + 1) (set_expired_at (Some now) (set_state EXPIRED r))).

(** The configured expiration window, in microseconds. *)
Definition expiration_window (cfg : Settings) : Z :=
  timedelta (default (24 * 3600) (ESCROW_DEFAULT_EXPIRATION_SECONDS cfg)).

(** The instance after a successful [fund], and the row it saves over
    [stored]. *)
Definition funded_self (cfg : Settings) (now clock : Time) (self : Escrow) : Escrow :=
  assign (set_updated_at clock)
    (assign (set_version (version self + 1))
       (assign (set_state FUNDED)
          (assign (set_expires_at (Some (now + expiration_window cfg)))
             (assign (set_funded_at (Some now)) self)))).

Definition funded_row (cfg : Settings) (now clock : Time) (self stored : Row) : Row :=
  set_state FUNDED
    (set_version (version self + 1)
       (set_funded_at (Some now)
          (set_expires_at (Some (now + expiration_window cfg))
             (set_updated_at clock stored)))).

(** The four transitions, to quantify over them. *)
Inductive Transition := Fund | Release | Refund | Expire.

Definition model_method (cfg : Settings) (t : Transition) : ModelMethod :=
  match t with
  | Fund => fund cfg
  | Release => release
  | Refund => refund
  | Expire => expire
  end.

(** ** Sample data for the worked instances *)

Module Sample.
Definition buyer : Request := mkRequest (mkUser "buyer-1" "buyer") "POST".
Definition seller : Request := mkRequest (mkUser "seller-1" "seller") "POST".
Definition cfg : Settings := mkSettings None.

Definition created : Row :=
  mkRow "buyer-1" "seller-1" 1000 "USD" CREATED None 10 10 None None None None 0.
Definition funded : Row :=
  mkRow "buyer-1" "seller-1" 1000 "USD" FUNDED (Some 500) 10 20 (Some 20) None None None 1.
Definition funded_late : Row :=
  mkRow "buyer-1" "seller-2" 2500 "USD" FUNDED (Some 9000) 10 20 (Some 20) None None None 1.
Definition refunded : Row :=
  mkRow "buyer-1" "seller-1" 1000 "USD" REFUNDED (Some 500) 10 30 (Some 20) None (Some 30) None 2.

Definition db : Table := <[3 := funded_late]> (<[2 := funded]> (<[1 := created]> ∅)).
Definition db_refunded : Table := <[2 := refunded]> db.
End Sample.

(** ** Two statements of the specification that the code does not meet *)

(** The specification's reading of a lost conditional update: when the
    update of a release or refund attempt matches no row, the caller is
    answered 409. *)
Definition lost_update_answers_busy : Prop :=
  ∀ (transition : ModelMethod) request (escrow : Escrow) (now : Time)
    (db : Table) (r : Row),
    transition = release ∨ transition = refund →
    role (user request) = "buyer" → buyer_id escrow = id (user request) →
    state escrow = FUNDED →
    db !! pk escrow = Some r → still_funded_at escrow r = false →
    client_status (act_on_loaded transition request escrow now db).1 = HTTP_409_CONFLICT.

(** The specification's reading of creation: a non-positive amount, or a
    seller equal to the buyer, makes it fail with no record created. *)
Definition create_rejects_bad_arguments : Prop :=
  ∀ vd request clock (db : Table) seller,
    vd_seller_id vd = Some seller →
    vd_amount vd ≤ 0 ∨ seller = id (user request) →
    ∃ e, EscrowSerializer_create vd request clock db = (Raise e, db).

(** ** Races on one escrow *)

(** An attempt on the escrow stored under [k]: a request to the release
    or refund action, the sweep's loop body reaching the row, or a model
    method called on an instance loaded at some earlier time (possibly
    out of date by now). *)
Inductive Attempt :=
| ReleaseRequest (request : Request) (now : Time) (held : gset Z)
| RefundRequest (request : Request) (now : Time) (held : gset Z)
| SweepExpire (now : Time)
| ReleaseCall (self : Escrow) (now : option Time) (clock : Time)
| RefundCall (self : Escrow) (now : option Time) (clock : Time)
| ExpireCall (self : Escrow) (now : option Time) (clock : Time).

(** The table an attempt leaves behind. *)
Definition attempt (k : Z) (a : Attempt) (db : Table) : Table :=
  match a with
  | ReleaseRequest request now held => (view_release request k now held db).2
  | RefundRequest request now held => (view_refund request k now held db).2
  | SweepExpire now => (sweep_body now k 0 db).2
  | ReleaseCall self now clock => (release self now clock db).2
  | RefundCall self now clock => (refund self now clock db).2
  | ExpireCall self now clock => (expire self now clock db).2
  end.

(** The tables persisted after each attempt, in order. *)
Fixpoint history (k : Z) (attempts : list Attempt) (db : Table) : list Table :=
  match attempts with
  | [] => []
  | a :: rest => attempt k a db :: history k rest (attempt k a db)
  end.

(** The table after all of them. *)
Definition outcome (k : Z) (attempts : list Attempt) (db : Table) : Table :=
  foldl (λ db a, attempt k a db) db attempts.

(** The number of attempts that changed the row stored under [k]. *)
Fixpoint commits (k : Z) (attempts : list Attempt) (db : Table) : nat :=
  match attempts with
  | [] => 0
  | a :: rest =>
      ((if bool_decide (attempt k a db !! k = db !! k) then 0 else 1)
       + commits k rest (attempt k a db))%nat
  end.

(** Attempts that cannot be turned away while the row is the FUNDED row
    [r0]: a request by the row's buyer with the lock free, the sweep's
    body, a call on an instance of [k] holding FUNDED at [r0]'s version. *)
Definition effective (k : Z) (r0 : Row) (a : Attempt) : Prop :=
  match a with
  | ReleaseRequest request _ held | RefundRequest request _ held =>
      role (user request) = "buyer" ∧ buyer_id r0 = id (user request) ∧ k ∉ held
  | SweepExpire _ => True
  | ReleaseCall self _ _ | RefundCall self _ _ | ExpireCall self _ _ =>
      pk self = k ∧ state self = FUNDED ∧ version self = version r0
  end.

(** ** What the sweep should leave *)

(** The number of rows the sweep's query matches, and the table with each
    of them expired. *)
Definition eligible_count (now : Time) (db : Table) : nat :=
  size (filter (λ kr : Z * Row, Is_true (eligible now kr.2)) db).

Definition swept (now : Time) (db : Table) : Table :=
  (λ r, if eligible now r then expired_row now r else r) <$> db.

(** ** Agreement of an instance with the table *)

(** The instance holds exactly what is stored under its key. *)
Definition in_sync (self : Escrow) (db : Table) : Prop :=
  db !! pk self = Some (row self).

(** The states each transition starts from, as the methods' first
    checks have them; [expire] has no refusal. *)
Definition accepted (t : Transition) (s : State) : bool :=
  match t with
  | Fund => bool_decide (s = CREATED)
  | Release | Refund => bool_decide (s = FUNDED)
  | Expire => true
  end.

(** ** The shape of a record along its lifecycle *)

Definition is_set (o : option Time) : bool :=
  match o with
  | Some _ => true
  | None => false
  end.

(** [expires_at] is [funded_at] plus the configured window. *)
Definition deadline_ok (cfg : Settings) (r : Row) : bool :=
  match funded_at r, expires_at r with
  | Some f, Some e => bool_decide (e = f + expiration_window cfg)
  | _, _ => false
  end.

(** State, version and timestamps agree: a CREATED row has version 0 and
    no transition timestamp; a FUNDED row has version 1 and its funding
    time and deadline; a terminal row has version 2, its funding time and
    deadline, and the one timestamp of its own state. *)
Definition lifecycle_ok (cfg : Settings) (r : Row) : bool :=
  match state r with
  | CREATED =>
      bool_decide (version r = 0) && negb (is_set (funded_at r))
      && negb (is_set (expires_at r)) && negb (is_set (released_at r))
      && negb (is_set (refunded_at r)) && negb (is_set (expired_at r))
  | FUNDED =>
      bool_decide (version r = 1) && deadline_ok cfg r
      && negb (is_set (released_at r)) && negb (is_set (refunded_at r))
      && negb (is_set (expired_at r))
  | RELEASED =>
      bool_decide (version r = 2) && deadline_ok cfg r
      && is_set (released_at r) && negb (is_set (refunded_at r))
      && negb (is_set (expired_at r))
  | REFUNDED =>
      bool_decide (version r = 2) && deadline_ok cfg r
      && negb (is_set (released_at r)) && is_set (refunded_at r)
      && negb (is_set (expired_at r))
  | EXPIRED =>
      bool_decide (version r = 2) && deadline_ok cfg r
      && negb (is_set (released_at r)) && negb (is_set (refunded_at r))
      && is_set (expired_at r)
  end.

Definition table_ok (cfg : Settings) (db : Table) : Prop :=
  map_Forall (λ _ r, lifecycle_ok cfg r = true) db.

(** The columns that are given at creation. *)
Definition identity (r : Row) : string * string * Decimal * string * Time :=
  (buyer_id r, seller_id r, amount r, currency r, created_at r).

(** The rows a creation adds. *)
Definition newly_created (r : Row) : Prop :=
  state r = CREATED ∧ version r = 0 ∧
  (expires_at r, funded_at r, released_at r, refunded_at r, expired_at r)
  = (None, None, None, None, None).

(** How many of the three terminal timestamps a row carries. *)
Definition terminal_stamps (r : Row) : nat :=
  ((if is_set (released_at r) then 1 else 0)
   + (if is_set (refunded_at r) then 1 else 0)
   + (if is_set (expired_at r) then 1 else 0))%nat.

(** ** Histories of the service *)

(** What the service can be asked to do: a creation, a request to one of
    the three actions, a run of the sweep. *)
Inductive Operation :=
| OpCreate (request : Request) (validated_data : ValidatedData) (clock : Time)
| OpFund (request : Request) (k : Z) (now : Time) (held : gset Z)
| OpRelease (request : Request) (k : Z) (now : Time) (held : gset Z)
| OpRefund (request : Request) (k : Z) (now : Time) (held : gset Z)
| OpSweep (clock : Time).

(** The table an operation leaves. The sweep is run with fuel for one
    more iteration than it has rows to expire, which is enough for it to
    return. *)
Definition perform (cfg : Settings) (op : Operation) (db : Table) : Table :=
  match op with
  | OpCreate request validated_data clock =>
      (view_create request validated_data clock db).2
  | OpFund request k now held => (view_fund cfg request k now held db).2
  | OpRelease request k now held => (view_release request k now held db).2
  | OpRefund request k now held => (view_refund request k now held db).2
  | OpSweep clock =>
      match expire_funded_escrows (S (eligible_count clock db)) clock db with
      | Some (_, db') => db'
      | None => db
      end
  end.

Definition perform_all (cfg : Settings) (ops : list Operation) (db : Table) : Table :=
  foldl (λ db op, perform cfg op db) db ops.

(** * Properties *)

(** ** Equations of the model methods *)

Lemma fund_eq cfg self now clock db :
  fund cfg self now clock db =
    if bool_decide (state self = CREATED) then
      match db !! pk self with
      | Some stored =>
          (Ok (), funded_self cfg (now_or now clock) clock self,
           <[pk self := funded_row cfg (now_or now clock) clock self stored]> db)
      | None =>
          (Raise (DatabaseError "Save with update_fields did not affect any rows."),
           funded_self cfg (now_or now clock) clock self, db)
      end
    else
      (Raise (ValueError "Escrow can only be funded from CREATED state."), self, db).
Proof.
  unfold fund, atomic.
  destruct (decide (state self = CREATED)) as [Hs|Hs].
  - rewrite (bool_decide_eq_false_2 (state self ≠ CREATED)) by auto.
    rewrite (bool_decide_eq_true_2 _ Hs).
    destruct self as [k [b s a c st ea ca ua fa ra rfa xa v]]; simpl in *; subst st.
    unfold save, _set_state, assign; simpl.
    destruct (db !! k) as [stored|]; reflexivity.
  - rewrite (bool_decide_eq_true_2 (state self ≠ CREATED)) by auto.
    rewrite (bool_decide_eq_false_2 _ Hs). reflexivity.
Qed.

Lemma release_eq self now clock db :
  release self now clock db =
    if bool_decide (state self = FUNDED) then
      match db !! pk self with
      | Some r =>
          if still_funded_at self r then
            (Ok (), mkEscrow (pk self) (released_row (now_or now clock) r),
             <[pk self := released_row (now_or now clock) r]> db)
          else
            (Raise (ValueError "Escrow cannot be released (state changed by concurrent action)."),
             self, db)
      | None =>
          (Raise (ValueError "Escrow cannot be released (state changed by concurrent action)."),
           self, db)
      end
    else
      (Raise (ValueError "Escrow can only be released from FUNDED state."), self, db).
Proof.
  unfold release, atomic, update_where, refresh_from_db, get.
  destruct (decide (state self = FUNDED)) as [Hs|Hs].
  - rewrite (bool_decide_eq_false_2 (state self ≠ FUNDED)) by auto.
    rewrite (bool_decide_eq_true_2 _ Hs).
    destruct (db !! pk self) as [r|]; [|reflexivity].
    destruct (still_funded_at self r); [|reflexivity].
    simpl. rewrite lookup_insert_eq. reflexivity.
  - rewrite (bool_decide_eq_true_2 (state self ≠ FUNDED)) by auto.
    rewrite (bool_decide_eq_false_2 _ Hs). reflexivity.
Qed.

Lemma refund_eq self now clock db :
  refund self now clock db =
    if bool_decide (state self = FUNDED) then
      match db !! pk self with
      | Some r =>
          if still_funded_at self r then
            (Ok (), mkEscrow (pk self) (refunded_row (now_or now clock) r),
             <[pk self := refunded_row (now_or now clock) r]> db)
          else
            (Raise (ValueError "Escrow cannot be refunded (state changed by concurrent action)."),
             self, db)
      | None =>
          (Raise (ValueError "Escrow cannot be refunded (state changed by concurrent action)."),
           self, db)
      end
    else
      (Raise (ValueError "Escrow can only be refunded from FUNDED state."), self, db).
Proof.
  unfold refund, atomic, update_where, refresh_from_db, get.
  destruct (decide (state self = FUNDED)) as [Hs|Hs].
  - rewrite (bool_decide_eq_false_2 (state self ≠ FUNDED)) by auto.
    rewrite (bool_decide_eq_true_2 _ Hs).
    destruct (db !! pk self) as [r|]; [|reflexivity].
    destruct (still_funded_at self r); [|reflexivity].
    simpl. rewrite lookup_insert_eq. reflexivity.
  - rewrite (bool_decide_eq_true_2 (state self ≠ FUNDED)) by auto.
    rewrite (bool_decide_eq_false_2 _ Hs). reflexivity.
Qed.

Lemma expire_eq self now clock db :
  expire self now clock db =
    if bool_decide (state self = FUNDED) then
      match db !! pk self with
      | Some r =>
          if still_funded_at self r then
            (Ok (), mkEscrow (pk self) (expired_row (now_or now clock) r),
             <[pk self := expired_row (now_or now clock) r]> db)
          else (Ok (), self, db)
      | None => (Ok (), self, db)
      end
    else (Ok (), self, db).
Proof.
  unfold expire, atomic, update_where, refresh_from_db, get.
  destruct (decide (state self = FUNDED)) as [Hs|Hs].
  - rewrite (bool_decide_eq_false_2 (state self ≠ FUNDED)) by auto.
    rewrite (bool_decide_eq_true_2 _ Hs).
    destruct (db !! pk self) as [r|]; [|reflexivity].
    destruct (still_funded_at self r); [|reflexivity].
    simpl. rewrite lookup_insert_eq. reflexivity.
  - rewrite (bool_decide_eq_true_2 (state self ≠ FUNDED)) by auto.
    rewrite (bool_decide_eq_false_2 _ Hs). reflexivity.
Qed.

(** How the filter of the conditional updates decides. *)
Lemma still_funded_at_true self r :
  still_funded_at self r = true ↔ state r = FUNDED ∧ version r = version self.
Proof.
  unfold still_funded_at.
  rewrite andb_true_iff, !bool_decide_eq_true. reflexivity.
Qed.

Lemma still_funded_at_same k r :
  state r = FUNDED → still_funded_at (mkEscrow k r) r = true.
Proof. intros Hs. apply still_funded_at_true. auto. Qed.

(** A method that raises [ValueError] has touched neither the instance
    nor the table. *)
Lemma value_error_unchanged cfg t self now clock db msg self' db' :
  model_method cfg t self now clock db = (Raise (ValueError msg), self', db') →
  self' = self ∧ db' = db.
Proof.
  destruct t; simpl.
  - rewrite fund_eq. case_bool_decide; [|by intros [= _ <- <-]].
    destruct (db !! pk self); intros [=].
  - rewrite release_eq. case_bool_decide; [|by intros [= _ <- <-]].
    destruct (db !! pk self) as [r|]; [|by intros [= _ <- <-]].
    destruct (still_funded_at self r); [intros [=]|by intros [= _ <- <-]].
  - rewrite refund_eq. case_bool_decide; [|by intros [= _ <- <-]].
    destruct (db !! pk self) as [r|]; [|by intros [= _ <- <-]].
    destruct (still_funded_at self r); [intros [=]|by intros [= _ <- <-]].
  - rewrite expire_eq. case_bool_decide; [|intros [=]].
    destruct (db !! pk self) as [r|]; [|intros [=]].
    destruct (still_funded_at self r); intros [=].
Qed.

(** Whatever a method raises, the table is the one it started from. *)
Lemma raise_keeps_table cfg t self now clock db e self' db' :
  model_method cfg t self now clock db = (Raise e, self', db') → db' = db.
Proof.
  destruct t; simpl.
  - rewrite fund_eq. case_bool_decide; [|by intros [= _ _ <-]].
    destruct (db !! pk self); [intros [=]|by intros [= _ _ <-]].
  - rewrite release_eq. case_bool_decide; [|by intros [= _ _ <-]].
    destruct (db !! pk self) as [r|]; [|by intros [= _ _ <-]].
    destruct (still_funded_at self r); [intros [=]|by intros [= _ _ <-]].
  - rewrite refund_eq. case_bool_decide; [|by intros [= _ _ <-]].
    destruct (db !! pk self) as [r|]; [|by intros [= _ _ <-]].
    destruct (still_funded_at self r); [intros [=]|by intros [= _ _ <-]].
  - rewrite expire_eq. case_bool_decide; [|intros [=]].
    destruct (db !! pk self) as [r|]; [|intros [=]].
    destruct (still_funded_at self r); intros [=].
Qed.

(** ** The views, case by case *)

Lemma check_permissions_action request :
  check_permissions action_permission_classes request
  = bool_decide (role (user request) = "buyer").
Proof. unfold check_permissions; simpl. by rewrite andb_true_r. Qed.

Lemma check_object_permissions_buyer request obj :
  role (user request) = "buyer" →
  check_object_permissions action_permission_classes request obj
  = bool_decide (buyer_id obj = id (user request)).
Proof.
  intros Hr. unfold check_object_permissions; simpl.
  rewrite (bool_decide_eq_true_2 _ Hr). by rewrite andb_true_r.
Qed.

(** A view changes the table only through its model method, called on
    the row it has just loaded, for the buyer who owns that row, and
    only when the method returns normally. *)
Lemma transition_action_changes cfg t request k now held db res db' :
  transition_action (model_method cfg t) request k now held db = (res, db') →
  db' = db ∨
  ∃ r self',
    role (user request) = "buyer" ∧ (k ∉ held) ∧
    db !! k = Some r ∧ buyer_id r = id (user request) ∧
    model_method cfg t (mkEscrow k r) (Some now) now db = (Ok (), self', db') ∧
    res = Ok (mkResponse (Data self') HTTP_200_OK).
Proof.
  unfold transition_action. rewrite check_permissions_action.
  case_bool_decide as Hrole; simpl; [|intros [= _ <-]; by left].
  unfold select_for_update_nowait_get, get.
  destruct (db !! k) as [r|] eqn:Hk; [|intros [= _ <-]; by left].
  case_bool_decide as Hheld; [intros [= _ <-]; by left|].
  unfold act_on_loaded. rewrite check_object_permissions_buyer by done.
  case_bool_decide as Hown; simpl; [|intros [= _ <-]; by left].
  destruct (model_method cfg t (mkEscrow k r) (Some now) now db)
    as [[[[]|e] self'] db1] eqn:Hm.
  - intros [= <- <-]. right. exists r, self'. done.
  - pose proof (raise_keeps_table _ _ _ _ _ _ _ _ _ Hm) as ->.
    destruct e; intros [= _ <-]; by left.
Qed.

(** ** Expire outside FUNDED *)

(** C2. On an escrow whose state is not FUNDED, [expire] returns normally
    and leaves the instance and the whole table as they were; the sweep's
    loop body, reaching such a row, leaves the table and the count as
    they were. *)
Theorem expire_not_funded_noop (self : Escrow) (db : Table) :
  state self ≠ FUNDED →
  (∀ now clock, expire self now clock db = (Ok (), self, db)) ∧
  (db !! pk self = Some (row self) →
   ∀ now expired_count, sweep_body now (pk self) expired_count db = (Ok expired_count, db)).
Proof.
  intros Hs. split.
  - intros now clock. rewrite expire_eq.
    by rewrite (bool_decide_eq_false_2 _ Hs).
  - intros Hrow now c. unfold sweep_body, get. rewrite Hrow. simpl.
    by rewrite (bool_decide_eq_true_2 _ Hs).
Qed.

Lemma expire_not_funded_noop_witness :
  expire (mkEscrow 1 Sample.created) None 77 Sample.db
    = (Ok (), mkEscrow 1 Sample.created, Sample.db) ∧
  sweep_body 77 1 4%nat Sample.db = (Ok 4%nat, Sample.db).
Proof.
  assert (Hs : state (mkEscrow 1 Sample.created) ≠ FUNDED) by (simpl; discriminate).
  destruct (expire_not_funded_noop (mkEscrow 1 Sample.created) Sample.db Hs) as [H1 H2].
  split; [apply H1 | apply (H2 eq_refl)].
Defined.

(** ** Rejected transitions *)

(** C5. [fund] on an escrow that is not CREATED raises the invalid
    transition error and leaves the instance and the table untouched; any
    model method that raises that error has changed neither; and a view
    that answers anything but 200 has left the table as it was. *)
Theorem rejected_transition_changes_nothing (cfg : Settings) (self : Escrow)
    (now : option Time) (clock : Time) (db : Table) :
  (state self ≠ CREATED →
   fund cfg self now clock db
   = (Raise (ValueError "Escrow can only be funded from CREATED state."), self, db)) ∧
  (∀ t msg self' db',
     model_method cfg t self now clock db = (Raise (ValueError msg), self', db') →
     self' = self ∧ db' = db) ∧
  (∀ t request k t_now held res db',
     transition_action (model_method cfg t) request k t_now held db = (res, db') →
     client_status res ≠ HTTP_200_OK → db' = db) ∧
  (∀ request held,
     state self ≠ CREATED → db !! pk self = Some (row self) →
     role (user request) = "buyer" → buyer_id self = id (user request) →
     pk self ∉ held →
     view_fund cfg request (pk self) clock held db
     = (Ok (mkResponse (Detail "Escrow can only be funded from CREATED state.")
              HTTP_400_BAD_REQUEST), db)).
Proof.
  repeat split.
  - intros Hs. rewrite fund_eq. by rewrite (bool_decide_eq_false_2 _ Hs).
  - eapply value_error_unchanged; eauto.
  - eapply value_error_unchanged; eauto.
  - intros t request k t_now held res db' Hv Hst.
    destruct (transition_action_changes _ _ _ _ _ _ _ _ _ Hv)
      as [->|(r & self' & _ & _ & _ & _ & _ & ->)]; [done|].
    by destruct Hst.
  - intros request held Hs Hrow Hrole Hown Hheld.
    unfold view_fund, transition_action. rewrite check_permissions_action.
    rewrite (bool_decide_eq_true_2 _ Hrole). simpl.
    unfold select_for_update_nowait_get, get. rewrite Hrow.
    rewrite (bool_decide_eq_false_2 _ Hheld).
    unfold act_on_loaded. rewrite check_object_permissions_buyer by done.
    simpl. rewrite (bool_decide_eq_true_2 _ Hown). simpl.
    rewrite fund_eq. simpl. by rewrite (bool_decide_eq_false_2 _ Hs).
Qed.

Lemma rejected_transition_changes_nothing_witness :
  fund Sample.cfg (mkEscrow 2 Sample.funded) (Some 40) 40 Sample.db
  = (Raise (ValueError "Escrow can only be funded from CREATED state."),
     mkEscrow 2 Sample.funded, Sample.db) ∧
  view_fund Sample.cfg Sample.buyer 2 40 ∅ Sample.db
  = (Ok (mkResponse (Detail "Escrow can only be funded from CREATED state.")
           HTTP_400_BAD_REQUEST), Sample.db).
Proof.
  destruct (rejected_transition_changes_nothing Sample.cfg (mkEscrow 2 Sample.funded)
              (Some 40) 40 Sample.db) as (H1 & _ & _ & H4).
  split.
  - apply H1. simpl. discriminate.
  - apply (H4 Sample.buyer ∅); simpl; try reflexivity; discriminate.
Defined.

(** ** Funding *)

(** The three conditional updates, the sweep's loop body and creation
    never write [expires_at]. *)
Lemma expires_at_kept_by_method t (cfg : Settings) self now clock db k :
  t ≠ Fund →
  expires_at <$> (model_method cfg t self now clock db).2 !! k = expires_at <$> db !! k.
Proof.
  intros Ht. destruct t; [done| | |]; simpl.
  - rewrite release_eq. case_bool_decide; [|done].
    destruct (db !! pk self) as [r|] eqn:Hr; [|done].
    destruct (still_funded_at self r); [|done]. simpl.
    destruct (decide (pk self = k)) as [<-|Hne].
    + by rewrite lookup_insert_eq, Hr.
    + by rewrite lookup_insert_ne.
  - rewrite refund_eq. case_bool_decide; [|done].
    destruct (db !! pk self) as [r|] eqn:Hr; [|done].
    destruct (still_funded_at self r); [|done]. simpl.
    destruct (decide (pk self = k)) as [<-|Hne].
    + by rewrite lookup_insert_eq, Hr.
    + by rewrite lookup_insert_ne.
  - rewrite expire_eq. case_bool_decide; [|done].
    destruct (db !! pk self) as [r|] eqn:Hr; [|done].
    destruct (still_funded_at self r); [|done]. simpl.
    destruct (decide (pk self = k)) as [<-|Hne].
    + by rewrite lookup_insert_eq, Hr.
    + by rewrite lookup_insert_ne.
Qed.

(** C6. [fund] on a CREATED escrow whose instance agrees with its row
    returns normally; the saved row is FUNDED, has [funded_at = now],
    [expires_at = now + window] (the window is 24 hours when the setting
    is absent) and a version one higher, every other column of the row
    but [updated_at] being kept; the instance holds the same values.
    Release, refund and expire leave [expires_at] of every row as it
    was. *)
Theorem fund_from_created (cfg : Settings) (self : Escrow) (now clock : Time)
    (db : Table) :
  state self = CREATED → db !! pk self = Some (row self) →
  ∃ saved : Row,
    fund cfg self (Some now) clock db
    = (Ok (), mkEscrow (pk self) saved, <[pk self := saved]> db) ∧
    state saved = FUNDED ∧
    funded_at saved = Some now ∧
    expires_at saved = Some (now + expiration_window cfg) ∧
    version saved = version self + 1 ∧
    (buyer_id saved, seller_id saved, amount saved, currency saved, created_at saved)
    = (buyer_id self, seller_id self, amount self, currency self, created_at self) ∧
    (released_at saved, refunded_at saved, expired_at saved)
    = (released_at self, refunded_at self, expired_at self) ∧
    (ESCROW_DEFAULT_EXPIRATION_SECONDS cfg = None →
     expiration_window cfg = 24 * 3600 * 1000000) ∧
    (∀ t self2 now2 clock2 db2 k, t ≠ Fund →
       expires_at <$> (model_method cfg t self2 now2 clock2 db2).2 !! k
       = expires_at <$> db2 !! k).
Proof.
  intros Hs Hrow. exists (funded_row cfg now clock self self).
  split.
  { rewrite fund_eq, (bool_decide_eq_true_2 _ Hs), Hrow. simpl.
    destruct self as [k r]. reflexivity. }
  repeat split.
  - intros Hnone. unfold expiration_window, timedelta. by rewrite Hnone.
  - intros. by apply expires_at_kept_by_method.
Qed.

Lemma fund_from_created_witness :
  ∃ saved : Row,
    fund Sample.cfg (mkEscrow 1 Sample.created) (Some 100) 101 Sample.db
    = (Ok (), mkEscrow 1 saved, <[1 := saved]> Sample.db) ∧
    state saved = FUNDED ∧ funded_at saved = Some 100 ∧
    expires_at saved = Some (100 + 86400000000) ∧ version saved = 1.
Proof.
  destruct (fund_from_created Sample.cfg (mkEscrow 1 Sample.created) 100 101 Sample.db
              eq_refl eq_refl) as (saved & H1 & H2 & H3 & H4 & H5 & _).
  exists saved. repeat split; assumption.
Defined.

(** ** A lost conditional update seen through the view *)

(** A release on an instance loaded while the row was FUNDED at version
    1, the row having been refunded since. *)
Lemma lost_update_answers_bad_request :
  act_on_loaded release Sample.buyer (mkEscrow 2 Sample.funded) 40 Sample.db_refunded
  = (Ok (mkResponse
           (Detail "Escrow cannot be released (state changed by concurrent action).")
           HTTP_400_BAD_REQUEST), Sample.db_refunded).
Proof. vm_compute. reflexivity. Qed.

(** The answer there is 400, so the specification's reading fails. *)
Lemma lost_update_not_busy : ¬ lost_update_answers_busy.
Proof.
  intros H.
  specialize (H release Sample.buyer (mkEscrow 2 Sample.funded) 40
                Sample.db_refunded Sample.refunded
                (or_introl eq_refl) eq_refl eq_refl eq_refl eq_refl eq_refl).
  rewrite lost_update_answers_bad_request in H. discriminate H.
Qed.

(** C3, amended. When the conditional update of a release or refund
    attempt matches no row (the row is gone from FUNDED or its version has
    moved since [escrow] was loaded), the model raises [ValueError] and
    the view answers 400 with that message, the table unchanged; 409 is
    the answer to a [DatabaseError] only. *)
Theorem lost_update_is_bad_request (request : Request) (escrow : Escrow)
    (now : Time) (db : Table) (r : Row) :
  role (user request) = "buyer" → buyer_id escrow = id (user request) →
  state escrow = FUNDED →
  db !! pk escrow = Some r → still_funded_at escrow r = false →
  act_on_loaded release request escrow now db
  = (Ok (mkResponse
           (Detail "Escrow cannot be released (state changed by concurrent action).")
           HTTP_400_BAD_REQUEST), db) ∧
  act_on_loaded refund request escrow now db
  = (Ok (mkResponse
           (Detail "Escrow cannot be refunded (state changed by concurrent action).")
           HTTP_400_BAD_REQUEST), db) ∧
  (∀ (transition : ModelMethod) res db',
     act_on_loaded transition request escrow now db = (res, db') →
     client_status res = HTTP_409_CONFLICT →
     ∃ msg, (transition escrow (Some now) now db).1.1 = Raise (DatabaseError msg)).
Proof.
  intros Hrole Hown Hs Hrow Hlost.
  unfold act_on_loaded. rewrite check_object_permissions_buyer by done.
  rewrite (bool_decide_eq_true_2 _ Hown). simpl.
  rewrite release_eq, refund_eq, (bool_decide_eq_true_2 _ Hs), Hrow, Hlost.
  repeat split.
  intros transition res db'.
  destruct (transition escrow (Some now) now db) as [[[[]|e] self'] db1] eqn:Hm.
  - intros [= <- <-]. discriminate.
  - destruct e; intros [= <- <-]; try discriminate.
    intros _. by exists msg.
Qed.

Lemma lost_update_is_bad_request_witness :
  act_on_loaded refund Sample.buyer (mkEscrow 2 Sample.funded) 40 Sample.db_refunded
  = (Ok (mkResponse
           (Detail "Escrow cannot be refunded (state changed by concurrent action).")
           HTTP_400_BAD_REQUEST), Sample.db_refunded).
Proof.
  apply (lost_update_is_bad_request Sample.buyer (mkEscrow 2 Sample.funded) 40
           Sample.db_refunded Sample.refunded eq_refl eq_refl eq_refl eq_refl eq_refl).
Defined.

(** ** Unknown identifiers *)

(** C8, what the code does. For a buyer's request carrying an id with no
    stored row, each of the three actions lets [DoesNotExist] escape: no
    handler of the view catches it and it is not an API exception, so the
    client is answered a server error, not 404. The table is unchanged.
    The sweep's loop body on such an id raises the same exception. *)
Theorem unknown_id_is_server_error (cfg : Settings) (request : Request) (k : Z)
    (now : Time) (held : gset Z) (db : Table) :
  db !! k = None → role (user request) = "buyer" →
  view_fund cfg request k now held db = (Raise DoesNotExist, db) ∧
  view_release request k now held db = (Raise DoesNotExist, db) ∧
  view_refund request k now held db = (Raise DoesNotExist, db) ∧
  (∀ expired_count, sweep_body now k expired_count db = (Raise DoesNotExist, db)) ∧
  client_status (Raise DoesNotExist) = HTTP_500_INTERNAL_SERVER_ERROR ∧
  client_status (Raise DoesNotExist) ≠ HTTP_404_NOT_FOUND.
Proof.
  intros Hk Hrole.
  unfold view_fund, view_release, view_refund, transition_action.
  rewrite check_permissions_action, (bool_decide_eq_true_2 _ Hrole). simpl.
  unfold select_for_update_nowait_get, sweep_body, get. rewrite Hk.
  repeat split. discriminate.
Qed.

Lemma unknown_id_is_server_error_witness :
  view_fund Sample.cfg Sample.buyer 42 40 ∅ Sample.db = (Raise DoesNotExist, Sample.db).
Proof.
  apply (unknown_id_is_server_error Sample.cfg Sample.buyer 42 40 ∅ Sample.db
           eq_refl eq_refl).
Defined.

(** ** Sellers *)

(** C10. A request from an actor whose role is "seller" to any of the
    three actions is refused with [PermissionDenied] (403) by the
    view-level check, before any row is loaded, and the table is
    unchanged. Whenever an action does change the table, the actor is a
    buyer and the row it changed carries the actor's id as [buyer_id]. *)
Theorem seller_cannot_transition (cfg : Settings) (request : Request) (k : Z)
    (now : Time) (held : gset Z) (db : Table) :
  (role (user request) = "seller" →
   view_fund cfg request k now held db = (Raise PermissionDenied, db) ∧
   view_release request k now held db = (Raise PermissionDenied, db) ∧
   view_refund request k now held db = (Raise PermissionDenied, db) ∧
   client_status (Raise PermissionDenied) = HTTP_403_FORBIDDEN) ∧
  (∀ t res db',
     transition_action (model_method cfg t) request k now held db = (res, db') →
     db' ≠ db →
     role (user request) = "buyer" ∧
     ∃ r, db !! k = Some r ∧ buyer_id r = id (user request)).
Proof.
  split.
  - intros Hrole.
    unfold view_fund, view_release, view_refund, transition_action.
    rewrite check_permissions_action.
    rewrite bool_decide_eq_false_2 by (rewrite Hrole; discriminate).
    done.
  - intros t res db' Hv Hne.
    destruct (transition_action_changes _ _ _ _ _ _ _ _ _ Hv)
      as [->|(r & self' & Hrole & _ & Hk & Hown & _)]; [done|].
    split; [done|]. by exists r.
Qed.

Lemma seller_cannot_transition_witness :
  view_release Sample.seller 2 40 ∅ Sample.db = (Raise PermissionDenied, Sample.db).
Proof.
  destruct (seller_cannot_transition Sample.cfg Sample.seller 2 40 ∅ Sample.db)
    as [H _].
  destruct (H eq_refl) as (_ & H2 & _). exact H2.
Defined.

(** ** Creation *)

Lemma foldr_max_ge (l : list Z) (k : Z) : k ∈ l → k ≤ foldr Z.max 0 l.
Proof.
  induction l as [|x l IH]; [by intros ?%elem_of_nil|].
  intros [->|Hin]%elem_of_cons; simpl; [lia|]. specialize (IH Hin). lia.
Qed.

(** The key [objects_create] picks is not in use. *)
Lemma next_pk_fresh (db : Table) : db !! next_pk db = None.
Proof.
  destruct (db !! next_pk db) as [r|] eqn:Hk; [|done].
  apply elem_of_map_to_list in Hk.
  assert (next_pk db ∈ (map_to_list db).*1) as Hin.
  { apply list_elem_of_fmap. by exists (next_pk db, r). }
  apply foldr_max_ge in Hin. unfold next_pk in Hin. lia.
Qed.

Lemma create_eq vd request clock db :
  EscrowSerializer_create vd request clock db =
    match vd_seller_id vd with
    | None | Some "" =>
        (Raise (ValidationError "seller_id" "This field is required."), db)
    | Some seller =>
        let escrow :=
          (objects_create (id (user request)) seller (vd_amount vd) (vd_currency vd)
             clock db).1 in
        (Ok escrow, <[pk escrow := row escrow]> db)
    end.
Proof.
  unfold EscrowSerializer_create.
  destruct (vd_seller_id vd) as [[|c s]|]; reflexivity.
Qed.

(** A creation with amount -5.00 and the buyer's own id as seller goes
    through, so the specification's reading fails. *)
Lemma create_accepts_bad_arguments : ¬ create_rejects_bad_arguments.
Proof.
  intros H.
  destruct (H (mkValidated (Some "buyer-1") None (-500) (Some "USD")) Sample.buyer
              7 ∅ "buyer-1" eq_refl (or_intror eq_refl)) as [e He].
  vm_compute in He. discriminate He.
Qed.

(** C4, amended. Creation fails, with a validation error and no record
    created, exactly when [seller_id] is missing or empty. No amount is
    refused and the seller is not compared with the buyer: every other
    input creates a record under an unused key, with the amount and the
    seller as given. *)
Theorem create_checks_seller_only (vd : ValidatedData) (request : Request)
    (clock : Time) (db : Table) :
  (vd_seller_id vd = None ∨ vd_seller_id vd = Some "" →
   EscrowSerializer_create vd request clock db
   = (Raise (ValidationError "seller_id" "This field is required."), db)) ∧
  (∀ seller, vd_seller_id vd = Some seller → seller ≠ "" →
   ∃ escrow,
     EscrowSerializer_create vd request clock db
     = (Ok escrow, <[pk escrow := row escrow]> db) ∧
     db !! pk escrow = None ∧
     amount escrow = vd_amount vd ∧ seller_id escrow = seller ∧
     buyer_id escrow = id (user request)).
Proof.
  split.
  - intros [H|H]; rewrite create_eq, H; reflexivity.
  - intros seller Hs Hne. rewrite create_eq, Hs.
    destruct seller as [|c s]; [done|].
    eexists. split; [reflexivity|]. simpl.
    repeat split. apply next_pk_fresh.
Qed.

Lemma create_checks_seller_only_witness :
  ∃ escrow,
    EscrowSerializer_create (mkValidated (Some "buyer-1") None (-500) None)
      Sample.buyer 7 Sample.db
    = (Ok escrow, <[pk escrow := row escrow]> Sample.db) ∧
    amount escrow = -500 ∧ seller_id escrow = buyer_id escrow.
Proof.
  destruct (create_checks_seller_only (mkValidated (Some "buyer-1") None (-500) None)
              Sample.buyer 7 Sample.db) as [_ H].
  destruct (H "buyer-1" eq_refl ltac:(discriminate)) as (e & H1 & _ & H3 & H4 & H5).
  exists e. repeat split; [exact H1 | exact H3 | rewrite H4, H5; reflexivity].
Defined.

(** C9. The created escrow's [buyer_id] is the authenticated user's id,
    whatever [buyer_id] the payload carried; without a [seller_id] the
    creation fails with a validation error and the table is unchanged;
    with one it succeeds, and the stored record is CREATED with version 0,
    no expiry and no transition timestamp. *)
Theorem create_uses_authenticated_buyer (vd : ValidatedData) (request : Request)
    (clock : Time) (db : Table) :
  (∀ supplied,
     EscrowSerializer_create
       (mkValidated (vd_seller_id vd) supplied (vd_amount vd) (vd_currency vd))
       request clock db
     = EscrowSerializer_create vd request clock db) ∧
  (vd_seller_id vd = None →
   EscrowSerializer_create vd request clock db
   = (Raise (ValidationError "seller_id" "This field is required."), db)) ∧
  (∀ seller, vd_seller_id vd = Some seller → seller ≠ "" →
     ∃ escrow db', EscrowSerializer_create vd request clock db = (Ok escrow, db')) ∧
  (∀ escrow db',
     EscrowSerializer_create vd request clock db = (Ok escrow, db') →
     buyer_id escrow = id (user request) ∧
     state escrow = CREATED ∧ version escrow = 0 ∧
     (expires_at escrow, funded_at escrow, released_at escrow,
      refunded_at escrow, expired_at escrow) = (None, None, None, None, None) ∧
     db !! pk escrow = None ∧ db' !! pk escrow = Some (row escrow)).
Proof.
  repeat split.
  - intros H. by rewrite create_eq, H.
  - intros seller Hs Hne. rewrite create_eq, Hs.
    destruct seller as [|c s]; [done|]. by eexists _, _.
  - revert H. rewrite create_eq.
    destruct (vd_seller_id vd) as [[|c s]|]; [done| |done].
    by intros [= <- <-].
  - revert H. rewrite create_eq.
    destruct (vd_seller_id vd) as [[|c s]|]; [done| |done].
    by intros [= <- <-].
  - revert H. rewrite create_eq.
    destruct (vd_seller_id vd) as [[|c s]|]; [done| |done].
    by intros [= <- <-].
  - revert H. rewrite create_eq.
    destruct (vd_seller_id vd) as [[|c s]|]; [done| |done].
    by intros [= <- <-].
  - revert H. rewrite create_eq.
    destruct (vd_seller_id vd) as [[|c s]|]; [done| |done].
    intros [= <- <-]. apply next_pk_fresh.
  - revert H. rewrite create_eq.
    destruct (vd_seller_id vd) as [[|c s]|]; [done| |done].
    intros [= <- <-]. apply lookup_insert_eq.
Qed.

Lemma create_uses_authenticated_buyer_witness :
  ∃ escrow db',
    EscrowSerializer_create (mkValidated (Some "seller-1") (Some "mallory") 5000 None)
      Sample.buyer 7 Sample.db = (Ok escrow, db') ∧
    buyer_id escrow = "buyer-1" ∧ state escrow = CREATED ∧ version escrow = 0.
Proof.
  destruct (create_uses_authenticated_buyer
              (mkValidated (Some "seller-1") (Some "mallory") 5000 None)
              Sample.buyer 7 Sample.db) as (_ & _ & H3 & H4).
  destruct (H3 "seller-1" eq_refl ltac:(discriminate)) as (e & db' & He).
  destruct (H4 e db' He) as (Hb & Hs & Hv & _).
  exists e, db'. repeat split; assumption.
Defined.

(** ** Racing attempts on one FUNDED escrow *)

(** What one model method does to the row stored under [k]: nothing, or
    it is the conditional update that matched, which takes a FUNDED row
    whose version is the instance's to a terminal state and the next
    version. *)
Lemma method_row_effect cfg t self now clock db k r :
  t ≠ Fund → db !! k = Some r →
  (model_method cfg t self now clock db).2 !! k = Some r ∨
  (pk self = k ∧ state self = FUNDED ∧ state r = FUNDED ∧ version r = version self ∧
   ∃ r', (model_method cfg t self now clock db).2 !! k = Some r' ∧
         is_terminal (state r') = true ∧ version r' = version r + 1).
Proof.
  intros Ht Hk.
  destruct t; [done| | |]; simpl;
    [rewrite release_eq | rewrite refund_eq | rewrite expire_eq];
    (case_bool_decide as Hs; [|by left]);
    (destruct (db !! pk self) as [x|] eqn:Hx; [|by left]);
    (destruct (still_funded_at self x) eqn:Hc; [|by left]);
    apply still_funded_at_true in Hc as [Hfx Hvx]; simpl;
    (destruct (decide (pk self = k)) as [Heq|Hne];
       [|left; by rewrite lookup_insert_ne]);
    right; rewrite Heq in Hx; rewrite Hk in Hx; injection Hx as <-;
    (repeat split; try done); eexists; rewrite Heq, lookup_insert_eq; by split.
Qed.

(** Called on an instance that agrees with a FUNDED row in state and
    version, the conditional update matches. *)
Lemma method_commits cfg t self now clock db r :
  t ≠ Fund → db !! pk self = Some r →
  state self = FUNDED → state r = FUNDED → version r = version self →
  ∃ r', (model_method cfg t self now clock db).2 !! pk self = Some r' ∧
        is_terminal (state r') = true ∧ version r' = version r + 1.
Proof.
  intros Ht Hk Hs Hr Hv.
  assert (still_funded_at self r = true) as Hc by (by apply still_funded_at_true).
  destruct t; [done| | |]; simpl.
  - rewrite release_eq, (bool_decide_eq_true_2 _ Hs), Hk, Hc. simpl.
    rewrite lookup_insert_eq. by eexists.
  - rewrite refund_eq, (bool_decide_eq_true_2 _ Hs), Hk, Hc. simpl.
    rewrite lookup_insert_eq. by eexists.
  - rewrite expire_eq, (bool_decide_eq_true_2 _ Hs), Hk, Hc. simpl.
    rewrite lookup_insert_eq. by eexists.
Qed.

Lemma view_row_effect cfg t request k now held db r :
  t ≠ Fund → db !! k = Some r →
  (transition_action (model_method cfg t) request k now held db).2 !! k = Some r ∨
  (state r = FUNDED ∧
   ∃ r', (transition_action (model_method cfg t) request k now held db).2 !! k = Some r' ∧
         is_terminal (state r') = true ∧ version r' = version r + 1).
Proof.
  intros Ht Hk.
  destruct (transition_action (model_method cfg t) request k now held db)
    as [res db'] eqn:Hv.
  destruct (transition_action_changes _ _ _ _ _ _ _ _ _ Hv)
    as [->|(r2 & self' & _ & _ & Hk2 & _ & Hm & _)]; [by left|].
  simpl. rewrite Hk in Hk2. injection Hk2 as <-.
  pose proof (method_row_effect cfg t (mkEscrow k r) (Some now) now db k r Ht Hk) as H.
  rewrite Hm in H. simpl in H.
  destruct H as [H|(_ & _ & Hs & _ & H)]; [by left|by right].
Qed.

Lemma sweep_body_table now k c db :
  (sweep_body now k c db).2 =
    match db !! k with
    | Some r => (expire (mkEscrow k r) (Some now) now db).2
    | None => db
    end.
Proof.
  unfold sweep_body, get. destruct (db !! k) as [r|] eqn:Hk; [|done].
  case_bool_decide as Hs.
  - simpl. rewrite expire_eq. simpl. by rewrite (bool_decide_eq_false_2 _ Hs).
  - destruct (expire (mkEscrow k r) (Some now) now db) as [[[[]|e] s] db'] eqn:He; [done|].
    simpl. symmetry.
    apply (raise_keeps_table (mkSettings None) Expire _ _ _ _ _ _ _ He).
Qed.

Lemma attempt_row k a db r :
  db !! k = Some r →
  attempt k a db !! k = Some r ∨
  (state r = FUNDED ∧
   ∃ r', attempt k a db !! k = Some r' ∧
         is_terminal (state r') = true ∧ version r' = version r + 1).
Proof.
  intros Hk. pose (cfg := mkSettings None).
  destruct a as [rq now held|rq now held|now|self now clock|self now clock|self now clock];
    simpl.
  - by apply (view_row_effect cfg Release).
  - by apply (view_row_effect cfg Refund).
  - rewrite sweep_body_table, Hk.
    destruct (method_row_effect cfg Expire (mkEscrow k r) (Some now) now db k r)
      as [H|(_ & _ & Hs & _ & H)]; [done|done|by left|by right].
  - destruct (method_row_effect cfg Release self now clock db k r)
      as [H|(_ & _ & Hs & _ & H)]; [done|done|by left|by right].
  - destruct (method_row_effect cfg Refund self now clock db k r)
      as [H|(_ & _ & Hs & _ & H)]; [done|done|by left|by right].
  - destruct (method_row_effect cfg Expire self now clock db k r)
      as [H|(_ & _ & Hs & _ & H)]; [done|done|by left|by right].
Qed.

(** For the row's buyer, with the lock free, the view leaves the table
    its model method leaves. *)
Lemma view_table_permitted cfg t request k now held db r :
  role (user request) = "buyer" → db !! k = Some r → k ∉ held →
  buyer_id r = id (user request) →
  (transition_action (model_method cfg t) request k now held db).2
  = (model_method cfg t (mkEscrow k r) (Some now) now db).2.
Proof.
  intros Hrole Hk Hheld Hown.
  unfold transition_action. rewrite check_permissions_action.
  rewrite (bool_decide_eq_true_2 _ Hrole). simpl.
  unfold select_for_update_nowait_get, get. rewrite Hk.
  rewrite (bool_decide_eq_false_2 _ Hheld).
  unfold act_on_loaded. rewrite check_object_permissions_buyer by done.
  simpl. rewrite (bool_decide_eq_true_2 _ Hown). simpl.
  destruct (model_method cfg t (mkEscrow k r) (Some now) now db)
    as [[[[]|e] self'] db1] eqn:Hm; [done|].
  pose proof (raise_keeps_table _ _ _ _ _ _ _ _ _ Hm) as ->.
  by destruct e.
Qed.

Lemma attempt_effective k a db r :
  db !! k = Some r → state r = FUNDED → effective k r a →
  ∃ r', attempt k a db !! k = Some r' ∧
        is_terminal (state r') = true ∧ version r' = version r + 1.
Proof.
  intros Hk Hs. pose (cfg := mkSettings None).
  destruct a as [rq now held|rq now held|now|self now clock|self now clock|self now clock];
    simpl.
  - intros (Hrole & Hown & Hheld). unfold view_release.
    rewrite (view_table_permitted cfg Release _ _ _ _ _ r) by done.
    by apply (method_commits cfg Release (mkEscrow k r)).
  - intros (Hrole & Hown & Hheld). unfold view_refund.
    rewrite (view_table_permitted cfg Refund _ _ _ _ _ r) by done.
    by apply (method_commits cfg Refund (mkEscrow k r)).
  - intros _. rewrite sweep_body_table, Hk.
    by apply (method_commits cfg Expire (mkEscrow k r)).
  - intros (<- & Hss & Hv). by apply (method_commits cfg Release self).
  - intros (<- & Hss & Hv). by apply (method_commits cfg Refund self).
  - intros (<- & Hss & Hv). by apply (method_commits cfg Expire self).
Qed.

(** Once the row is terminal, no attempt changes it. *)
Lemma settled_history k r attempts : ∀ db,
  db !! k = Some r → is_terminal (state r) = true →
  commits k attempts db = 0%nat ∧
  Forall (λ db', db' !! k = Some r) (history k attempts db) ∧
  outcome k attempts db !! k = Some r.
Proof.
  induction attempts as [|a rest IH]; intros db Hk Ht; simpl.
  { by repeat split. }
  assert (attempt k a db !! k = Some r) as Hstep.
  { destruct (attempt_row k a db r Hk) as [H|[Hs _]]; [done|].
    rewrite Hs in Ht. discriminate. }
  destruct (IH _ Hstep Ht) as (Hc & Hh & Ho).
  rewrite Hstep, Hk, bool_decide_eq_true_2, Hc by done.
  repeat split; [by constructor|done].
Qed.

(** From the FUNDED row [r0]: either nothing has committed and no attempt
    was effective, or exactly one attempt committed and the row has been
    the same terminal row ever since. *)
Lemma race_from_funded k r0 attempts : ∀ db,
  db !! k = Some r0 → state r0 = FUNDED →
  (commits k attempts db = 0%nat ∧
   Forall (λ db', db' !! k = Some r0) (history k attempts db) ∧
   outcome k attempts db !! k = Some r0 ∧
   ¬ Exists (effective k r0) attempts) ∨
  (commits k attempts db = 1%nat ∧
   ∃ r1, is_terminal (state r1) = true ∧ version r1 = version r0 + 1 ∧
         Forall (λ db', db' !! k = Some r0 ∨ db' !! k = Some r1)
           (history k attempts db) ∧
         outcome k attempts db !! k = Some r1).
Proof.
  induction attempts as [|a rest IH]; intros db Hk Hs; simpl.
  { left. repeat split; [constructor|done|by intros ?%Exists_nil]. }
  destruct (attempt_row k a db r0 Hk) as [Hstep|(_ & r1 & Hstep & Ht & Hv)].
  - rewrite Hstep, Hk, bool_decide_eq_true_2 by done. simpl.
    assert (¬ effective k r0 a) as Hneff.
    { intros Heff.
      destruct (attempt_effective k a db r0 Hk Hs Heff) as (r' & Hr' & _ & Hv').
      rewrite Hstep in Hr'. injection Hr' as <-. lia. }
    destruct (IH _ Hstep Hs) as [(Hc & Hh & Ho & Hne)|(Hc & r1 & Ht & Hv & Hh & Ho)].
    + left. repeat split; [done|by constructor|done|].
      intros [?|?]%Exists_cons; tauto.
    + right. split; [done|]. exists r1. repeat split; try done.
      constructor; [by left|done].
  - right.
    destruct (settled_history k r1 rest _ Hstep Ht) as (Hc & Hh & Ho).
    rewrite Hstep, Hk, Hc.
    rewrite bool_decide_eq_false_2; [|intros [= ->]; lia].
    split; [done|]. exists r1. repeat split; try done.
    constructor; [by right|].
    eapply Forall_impl; [exact Hh|]. intros ? ?. by right.
Qed.

Lemma terminal_instance_frozen cfg t (self : Escrow) now clock (db : Table) :
  is_terminal (state self) = true →
  (model_method cfg t self now clock db).2 = db.
Proof.
  intros Ht.
  assert (state self ≠ CREATED ∧ state self ≠ FUNDED) as [Hc Hf].
  { destruct (state self); (try discriminate Ht); split; discriminate. }
  destruct t; simpl.
  - rewrite fund_eq. by rewrite (bool_decide_eq_false_2 _ Hc).
  - rewrite release_eq. by rewrite (bool_decide_eq_false_2 _ Hf).
  - rewrite refund_eq. by rewrite (bool_decide_eq_false_2 _ Hf).
  - rewrite expire_eq. by rewrite (bool_decide_eq_false_2 _ Hf).
Qed.

Lemma terminal_row_view_frozen cfg t request k now held db r :
  db !! k = Some r → is_terminal (state r) = true →
  (transition_action (model_method cfg t) request k now held db).2 = db.
Proof.
  intros Hk Ht.
  destruct (transition_action (model_method cfg t) request k now held db)
    as [res db'] eqn:Hv.
  destruct (transition_action_changes _ _ _ _ _ _ _ _ _ Hv)
    as [->|(r2 & self' & _ & _ & Hk2 & _ & Hm & _)]; [done|].
  rewrite Hk in Hk2. injection Hk2 as <-.
  pose proof (terminal_instance_frozen cfg t (mkEscrow k r) (Some now) now db Ht) as H.
  rewrite Hm in H. done.
Qed.

(** C1, where the code departs from it. Release, refund and expire
    commit through a conditional update on the stored state and version;
    [fund] checks the state of the instance only and writes with [save],
    which puts no condition on the stored row. Called on an instance that
    was loaded while the row was CREATED, after the row has reached a
    terminal state, [fund] returns normally and rewrites the stored row
    to FUNDED at the instance's version plus one, the terminal timestamp
    staying in place; a release request by the buyer then commits a
    second terminal transition on the same record. *)
Theorem stale_fund_reopens_terminal_record (cfg : Settings) (self : Escrow)
    (now : option Time) (clock : Time) (db : Table) (r : Row) :
  state self = CREATED → db !! pk self = Some r → is_terminal (state r) = true →
  ∃ r',
    fund cfg self now clock db
    = (Ok (), funded_self cfg (now_or now clock) clock self, <[pk self := r']> db) ∧
    state r' = FUNDED ∧ version r' = version self + 1 ∧
    (released_at r', refunded_at r', expired_at r')
    = (released_at r, refunded_at r, expired_at r) ∧
    (∀ request now2 held,
       role (user request) = "buyer" → buyer_id r = id (user request) →
       pk self ∉ held →
       view_release request (pk self) now2 held (<[pk self := r']> db)
       = (Ok (mkResponse (Data (mkEscrow (pk self) (released_row now2 r')))
                HTTP_200_OK),
          <[pk self := released_row now2 r']> db)).
Proof.
  intros Hs Hk Ht.
  exists (funded_row cfg (now_or now clock) clock self r).
  split; [by rewrite fund_eq, (bool_decide_eq_true_2 _ Hs), Hk|].
  split; [done|]. split; [done|]. split; [done|].
  intros request now2 held Hrole Hown Hheld.
  unfold view_release, transition_action.
  rewrite check_permissions_action, (bool_decide_eq_true_2 _ Hrole). simpl.
  unfold select_for_update_nowait_get, get. rewrite lookup_insert_eq.
  rewrite (bool_decide_eq_false_2 _ Hheld).
  unfold act_on_loaded. rewrite check_object_permissions_buyer by done.
  simpl. rewrite (bool_decide_eq_true_2 _ Hown). simpl.
  rewrite release_eq. simpl. rewrite lookup_insert_eq.
  by rewrite still_funded_at_same, insert_insert_eq.
Qed.

Lemma stale_fund_reopens_terminal_record_witness :
  ∃ r' r'',
    (fund Sample.cfg (mkEscrow 2 Sample.created) (Some 50) 50 Sample.db_refunded).2 !! 2
    = Some r' ∧
    state Sample.refunded = REFUNDED ∧ version Sample.refunded = 2 ∧
    state r' = FUNDED ∧ version r' = 1 ∧
    (view_release Sample.buyer 2 60 ∅
       (fund Sample.cfg (mkEscrow 2 Sample.created) (Some 50) 50 Sample.db_refunded).2).2
      !! 2 = Some r'' ∧
    state r'' = RELEASED ∧ refunded_at r'' = Some 30 ∧ released_at r'' = Some 60.
Proof.
  assert (2 ∉ (∅ : gset Z)) as Hfree by (vm_compute; discriminate).
  destruct (stale_fund_reopens_terminal_record Sample.cfg (mkEscrow 2 Sample.created)
              (Some 50) 50 Sample.db_refunded Sample.refunded eq_refl eq_refl eq_refl)
    as (r' & Hfund & Hs & Hv & Hts & Hnext).
  pose proof (Hnext Sample.buyer 60 ∅ eq_refl eq_refl Hfree) as Hrel.
  exists r', (released_row 60 r'). rewrite Hfund. simpl in *.
  rewrite Hrel. simpl. rewrite !lookup_insert_eq.
  injection Hts as _ Hrf _.
  repeat split; done.
Defined.

(** X19. Take a table whose row [k] is the FUNDED row [r0], and any
    sequence of release, refund and expire attempts on it (requests by any
    actor, sweep steps, calls on instances loaded earlier). At most one
    attempt changes the row. There is one terminal row [r1], of version
    [r0]'s plus one, such that after every attempt the stored row is [r0]
    or [r1]; the final version is [r0]'s plus the number of commits. When
    at least one attempt is effective, exactly one attempt commits. A row
    in a terminal state is changed by no attempt and by no fund request
    through the view, and no model method, fund included, writes anything
    when called on an instance that is itself in a terminal state. *)
Theorem single_terminal_outcome (k : Z) (r0 : Row) (db : Table)
    (attempts : list Attempt) :
  db !! k = Some r0 → state r0 = FUNDED →
  (commits k attempts db ≤ 1)%nat ∧
  (∃ r1, is_terminal (state r1) = true ∧ version r1 = version r0 + 1 ∧
         Forall (λ db', db' !! k = Some r0 ∨ db' !! k = Some r1)
           (history k attempts db) ∧
         outcome k attempts db !! k
         = Some (if decide (commits k attempts db = 0%nat) then r0 else r1)) ∧
  (∃ r, outcome k attempts db !! k = Some r ∧
        version r = version r0 + Z.of_nat (commits k attempts db)) ∧
  (Exists (effective k r0) attempts → commits k attempts db = 1%nat) ∧
  (∀ (db2 : Table) r, db2 !! k = Some r → is_terminal (state r) = true →
     (∀ a, attempt k a db2 !! k = Some r) ∧
     (∀ cfg request now held, (view_fund cfg request k now held db2).2 = db2)) ∧
  (∀ cfg t (self : Escrow) now clock (db2 : Table),
     is_terminal (state self) = true →
     (model_method cfg t self now clock db2).2 = db2).
Proof.
  intros Hk Hs.
  destruct (race_from_funded k r0 attempts db Hk Hs)
    as [(Hc & Hh & Ho & Hne)|(Hc & r1 & Ht & Hv & Hh & Ho)].
  - rewrite Hc. split; [lia|]. split; [|split; [|split; [|split]]].
    + exists (released_row 0 r0). repeat split; [|done].
      eapply Forall_impl; [exact Hh|]. intros ? ?. by left.
    + exists r0. split; [done|]. simpl. lia.
    + done.
    + intros db2 r Hk2 Ht. split.
      * intros a. destruct (attempt_row k a db2 r Hk2) as [H|[Hf _]]; [done|].
        rewrite Hf in Ht. discriminate.
      * intros cfg request now held.
        by apply (terminal_row_view_frozen cfg Fund _ _ _ _ _ r).
    + intros. by apply terminal_instance_frozen.
  - rewrite Hc. split; [lia|]. split; [|split; [|split; [|split]]].
    + exists r1. by repeat split.
    + exists r1. split; [done|]. simpl. lia.
    + done.
    + intros db2 r Hk2 Ht2. split.
      * intros a. destruct (attempt_row k a db2 r Hk2) as [H|[Hf _]]; [done|].
        rewrite Hf in Ht2. discriminate.
      * intros cfg request now held.
        by apply (terminal_row_view_frozen cfg Fund _ _ _ _ _ r).
    + intros. by apply terminal_instance_frozen.
Qed.

Lemma single_terminal_outcome_witness :
  commits 2
    [ReleaseRequest Sample.seller 30 ∅;
     RefundRequest Sample.buyer 40 ∅;
     ReleaseRequest Sample.buyer 41 ∅;
     SweepExpire 600;
     ExpireCall (mkEscrow 2 Sample.funded) None 601]
    Sample.db = 1%nat.
Proof.
  destruct (single_terminal_outcome 2 Sample.funded Sample.db
    [ReleaseRequest Sample.seller 30 ∅;
     RefundRequest Sample.buyer 40 ∅;
     ReleaseRequest Sample.buyer 41 ∅;
     SweepExpire 600;
     ExpireCall (mkEscrow 2 Sample.funded) None 601] eq_refl eq_refl)
    as (_ & _ & _ & H & _).
  apply H. apply Exists_cons_tl, Exists_cons_tl, Exists_cons_tl, Exists_cons_hd.
  exact I.
Defined.

(** ** The expiry sweep *)

Lemma eligible_spec now r :
  eligible now r = true ↔ state r = FUNDED ∧ ∃ t, expires_at r = Some t ∧ t ≤ now.
Proof.
  unfold eligible. rewrite andb_true_iff, bool_decide_eq_true.
  destruct (expires_at r) as [t|].
  - rewrite bool_decide_eq_true. split.
    + intros [Hs Ht]. split; [done|]. by exists t.
    + intros [Hs (t' & [= <-] & Ht)]. done.
  - split; [intros [_ [=]]|intros [_ (t & [=] & _)]].
Qed.

Lemma expired_not_eligible now now' r : eligible now' (expired_row now r) = false.
Proof. reflexivity. Qed.

(** The loop body on an eligible row. *)
Lemma sweep_body_eligible now k c db r :
  db !! k = Some r → eligible now r = true →
  sweep_body now k c db = (Ok (c + 1)%nat, <[k := expired_row now r]> db).
Proof.
  intros Hk [Hs _]%eligible_spec.
  unfold sweep_body, get. rewrite Hk. simpl.
  rewrite bool_decide_eq_false_2 by (intros H; by apply H).
  rewrite expire_eq. simpl.
  by rewrite (bool_decide_eq_true_2 _ Hs), Hk, still_funded_at_same.
Qed.

Lemma expire_one_count now k db r :
  db !! k = Some r → eligible now r = true →
  (eligible_count now (<[k := expired_row now r]> db) + 1)%nat = eligible_count now db.
Proof.
  intros Hk He. unfold eligible_count.
  rewrite map_filter_insert_False by (intros H; exact H).
  rewrite map_filter_delete.
  set (m := filter (λ kr : Z * Row, Is_true (eligible now kr.2)) db).
  assert (m !! k = Some r) as Hm.
  { apply map_lookup_filter_Some_2; [done|]. simpl. by rewrite He. }
  rewrite <-(insert_delete_id m k r Hm) at 2.
  rewrite map_size_insert_None by apply lookup_delete_eq. lia.
Qed.

Lemma expire_one_swept now k db r :
  db !! k = Some r → eligible now r = true →
  swept now (<[k := expired_row now r]> db) = swept now db.
Proof.
  intros Hk He. unfold swept. rewrite fmap_insert, expired_not_eligible.
  apply insert_id. by rewrite lookup_fmap, Hk; simpl; rewrite He.
Qed.

(** One batch: every candidate is expired and counted. *)
Lemma for_each_candidate_spec now cands : ∀ c db,
  NoDup (pk <$> cands) →
  (∀ e, e ∈ cands → db !! pk e = Some (row e) ∧ eligible now (row e) = true) →
  ∃ db1,
    for_each_candidate now cands c db = (Ok (c + length cands)%nat, db1) ∧
    (eligible_count now db1 + length cands)%nat = eligible_count now db ∧
    swept now db1 = swept now db.
Proof.
  induction cands as [|e rest IH]; intros c db Hnd Hin; simpl.
  { exists db. repeat split; [f_equal; f_equal; lia | lia]. }
  destruct (Hin e) as [Hk He]; [by left|].
  rewrite (sweep_body_eligible now (pk e) c db (row e) Hk He).
  rewrite fmap_cons in Hnd. apply NoDup_cons in Hnd as [Hnotin Hnd].
  destruct (IH (c + 1)%nat (<[pk e := expired_row now (row e)]> db) Hnd)
    as (db1 & Hrun & Hcount & Hswept).
  { intros e' He'. destruct (Hin e') as [Hk' He'']; [by right|].
    split; [|done]. rewrite lookup_insert_ne; [done|].
    intros Heq. apply Hnotin. rewrite Heq. by apply list_elem_of_fmap_2. }
  exists db1. rewrite Hrun. repeat split.
  - f_equal. f_equal. lia.
  - pose proof (expire_one_count now (pk e) db (row e) Hk He). lia.
  - rewrite Hswept. by apply expire_one_swept.
Qed.

(** The query's answer. *)
Lemma candidates_sound now db e :
  e ∈ candidates now db → db !! pk e = Some (row e) ∧ eligible now (row e) = true.
Proof.
  unfold candidates. intros Hin. apply subseteq_take in Hin.
  rewrite merge_sort_Permutation in Hin.
  apply list_elem_of_fmap in Hin as ([k r] & -> & Hin).
  apply list_elem_of_filter in Hin as [He Hin]. simpl in *.
  apply elem_of_map_to_list in Hin. split; [done|]. by apply Is_true_true.
Qed.

Lemma candidates_NoDup now db : NoDup (pk <$> candidates now db).
Proof.
  unfold candidates. rewrite fmap_take.
  eapply sublist_NoDup; [|apply sublist_take].
  rewrite merge_sort_Permutation, <-list_fmap_compose.
  eapply sublist_NoDup; [apply (NoDup_fst_map_to_list db)|].
  apply fmap_sublist, sublist_filter.
Qed.

Lemma candidates_nil now db k r :
  candidates now db = [] → db !! k = Some r → eligible now r = false.
Proof.
  unfold candidates, batch_size. intros Hnil Hk.
  destruct (merge_sort by_id _) as [|x l] eqn:Hsort in Hnil; [|discriminate Hnil].
  clear Hnil.
  assert ((λ kr : Z * Row, mkEscrow kr.1 kr.2) <$>
            filter (λ kr : Z * Row, Is_true (eligible now kr.2)) (map_to_list db) = [])
    as Hmap.
  { apply Permutation_nil_r. rewrite <-Hsort. symmetry. apply merge_sort_Permutation. }
  apply fmap_nil_inv in Hmap.
  destruct (eligible now r) eqn:He; [|done].
  exfalso. apply (filter_nil_not_elem_of _ _ (k, r) Hmap).
  - simpl. by rewrite He.
  - by apply elem_of_map_to_list.
Qed.

Lemma nothing_eligible now (db : Table) :
  (∀ k r, db !! k = Some r → eligible now r = false) →
  candidates now db = [] ∧ eligible_count now db = 0%nat ∧ swept now db = db.
Proof.
  intros Hnone. repeat split.
  - destruct (candidates now db) as [|e l] eqn:Hc; [done|].
    destruct (candidates_sound now db e) as [Hk He]; [rewrite Hc; by left|].
    rewrite (Hnone _ _ Hk) in He. discriminate.
  - unfold eligible_count. apply map_size_empty_iff. apply map_empty_filter_2.
    intros k r Hk. change (¬ Is_true (eligible now r)).
    rewrite (Hnone _ _ Hk). intros [].
  - unfold swept. apply map_eq. intros k. rewrite lookup_fmap.
    destruct (db !! k) as [r|] eqn:Hk; [|done]. simpl.
    by rewrite (Hnone _ _ Hk).
Qed.

(** The loop, given fuel for one more iteration than there are rows to
    expire. *)
Lemma sweep_loop_spec now : ∀ fuel c db,
  (eligible_count now db < fuel)%nat →
  sweep_loop fuel now c db = Some (Ok (c + eligible_count now db)%nat, swept now db).
Proof.
  induction fuel as [|fuel IH]; intros c db Hfuel; [lia|]. simpl.
  destruct (candidates now db) as [|e rest] eqn:Hc.
  - destruct (nothing_eligible now db) as (_ & -> & ->).
    { intros k r. by apply candidates_nil. }
    do 3 f_equal. lia.
  - destruct (for_each_candidate_spec now (e :: rest) c db)
      as (db1 & Hrun & Hcount & Hswept).
    { rewrite <-Hc. apply candidates_NoDup. }
    { intros e' He'. apply candidates_sound. by rewrite Hc. }
    simpl in Hrun. rewrite Hrun. simpl in Hcount. rewrite IH by lia.
    rewrite Hswept. do 3 f_equal. simpl. lia.
Qed.

(** After the sweep no row is eligible at the sweep's [now]. *)
Lemma swept_not_eligible now (db : Table) k r :
  swept now db !! k = Some r → eligible now r = false.
Proof.
  unfold swept. rewrite lookup_fmap.
  destruct (db !! k) as [r0|]; [|discriminate]. simpl. intros [= <-].
  destruct (eligible now r0) eqn:He; [apply expired_not_eligible|done].
Qed.

(** C7. Given fuel for one more iteration than there are eligible rows,
    [expire_funded_escrows] returns; its result is the number of rows
    that were FUNDED with [expires_at <= now]; in the table it leaves,
    each of those rows is EXPIRED with [expired_at = now] and the next
    version, and every other row is as it was. Run again at once (same
    [now]), or at any later time at which no row is eligible, it returns 0
    and changes nothing. *)
Theorem sweep_expires_exactly_eligible (now : Time) (db : Table) (fuel : nat) :
  (eligible_count now db < fuel)%nat →
  ∃ db',
    expire_funded_escrows fuel now db = Some (Ok (eligible_count now db), db') ∧
    (∀ k, db' !! k
          = (λ r, if eligible now r then expired_row now r else r) <$> db !! k) ∧
    (∀ k r, db !! k = Some r → eligible now r = true →
       ∃ r', db' !! k = Some r' ∧ state r' = EXPIRED ∧
             expired_at r' = Some now ∧ version r' = version r + 1) ∧
    (∀ k r, db !! k = Some r → eligible now r = false → db' !! k = Some r) ∧
    (∀ fuel', (0 < fuel')%nat →
       expire_funded_escrows fuel' now db' = Some (Ok 0%nat, db')) ∧
    (∀ now' fuel', (0 < fuel')%nat →
       (∀ k r, db' !! k = Some r → eligible now' r = false) →
       expire_funded_escrows fuel' now' db' = Some (Ok 0%nat, db')).
Proof.
  intros Hfuel. exists (swept now db).
  assert (∀ now' fuel', (0 < fuel')%nat →
            (∀ k r, swept now db !! k = Some r → eligible now' r = false) →
            expire_funded_escrows fuel' now' (swept now db)
            = Some (Ok 0%nat, swept now db)) as Hagain.
  { intros now' fuel' Hpos Hnone.
    destruct (nothing_eligible now' (swept now db) Hnone) as (Hc & _ & _).
    destruct fuel' as [|f]; [lia|].
    unfold expire_funded_escrows. simpl. by rewrite Hc. }
  split; [|split; [|split; [|split; [|split]]]].
  - unfold expire_funded_escrows. by rewrite sweep_loop_spec.
  - intros k. unfold swept. by rewrite lookup_fmap.
  - intros k r Hk He. exists (expired_row now r).
    unfold swept. rewrite lookup_fmap, Hk. simpl. by rewrite He.
  - intros k r Hk He. unfold swept. rewrite lookup_fmap, Hk. simpl. by rewrite He.
  - intros fuel' Hpos. apply Hagain; [done|]. apply swept_not_eligible.
  - exact Hagain.
Qed.

Lemma sweep_expires_exactly_eligible_witness :
  ∃ db',
    expire_funded_escrows 5 600 Sample.db = Some (Ok 1%nat, db') ∧
    db' !! 2 = Some (expired_row 600 Sample.funded) ∧
    db' !! 3 = Some Sample.funded_late ∧
    expire_funded_escrows 5 600 db' = Some (Ok 0%nat, db').
Proof.
  assert (eligible_count 600%Z Sample.db < 5)%nat as Hfuel by (vm_compute; lia).
  destruct (sweep_expires_exactly_eligible 600 Sample.db 5 Hfuel)
    as (db' & Hrun & Hrows & _ & _ & Hagain & _).
  exists db'. repeat split.
  - exact Hrun.
  - rewrite Hrows. reflexivity.
  - rewrite Hrows. reflexivity.
  - apply Hagain. lia.
Defined.


(** * Further properties of the code *)

(** ** What a transition can do to the table *)

(** A model method either leaves the table as it is or replaces the row
    stored under the instance's key by the row of its transition. *)
Lemma method_table_cases cfg t (self : Escrow) now clock (db : Table) :
  (model_method cfg t self now clock db).2 = db ∨
  ∃ r r',
    db !! pk self = Some r ∧
    (model_method cfg t self now clock db).2 = <[pk self := r']> db ∧
    match t with
    | Fund => state self = CREATED ∧ r' = funded_row cfg (now_or now clock) clock self r
    | Release => state r = FUNDED ∧ r' = released_row (now_or now clock) r
    | Refund => state r = FUNDED ∧ r' = refunded_row (now_or now clock) r
    | Expire => state r = FUNDED ∧ r' = expired_row (now_or now clock) r
    end.
Proof.
  destruct t; simpl.
  - rewrite fund_eq. case_bool_decide as Hs; [|by left].
    destruct (db !! pk self) as [r|] eqn:Hr; [|by left].
    right. by eexists r, _.
  - rewrite release_eq. case_bool_decide as Hs; [|by left].
    destruct (db !! pk self) as [r|] eqn:Hr; [|by left].
    destruct (still_funded_at self r) eqn:Hc; [|by left].
    apply still_funded_at_true in Hc as [Hf _]. right. by eexists r, _.
  - rewrite refund_eq. case_bool_decide as Hs; [|by left].
    destruct (db !! pk self) as [r|] eqn:Hr; [|by left].
    destruct (still_funded_at self r) eqn:Hc; [|by left].
    apply still_funded_at_true in Hc as [Hf _]. right. by eexists r, _.
  - rewrite expire_eq. case_bool_decide as Hs; [|by left].
    destruct (db !! pk self) as [r|] eqn:Hr; [|by left].
    destruct (still_funded_at self r) eqn:Hc; [|by left].
    apply still_funded_at_true in Hc as [Hf _]. right. by eexists r, _.
Qed.

(** The same for a view, whose instance is the stored row itself. *)
Lemma view_table_cases cfg t request k now held (db : Table) :
  (transition_action (model_method cfg t) request k now held db).2 = db ∨
  ∃ r r',
    db !! k = Some r ∧
    role (user request) = "buyer" ∧ buyer_id r = id (user request) ∧ (k ∉ held) ∧
    (transition_action (model_method cfg t) request k now held db).2 = <[k := r']> db ∧
    match t with
    | Fund => state r = CREATED ∧ r' = funded_row cfg now now r r
    | Release => state r = FUNDED ∧ r' = released_row now r
    | Refund => state r = FUNDED ∧ r' = refunded_row now r
    | Expire => state r = FUNDED ∧ r' = expired_row now r
    end.
Proof.
  destruct (transition_action (model_method cfg t) request k now held db)
    as [res db'] eqn:Hv.
  destruct (transition_action_changes _ _ _ _ _ _ _ _ _ Hv)
    as [->|(r & self' & Hrole & Hheld & Hk & Hown & Hm & _)]; [by left|].
  simpl.
  destruct (method_table_cases cfg t (mkEscrow k r) (Some now) now db)
    as [Hsame|(r1 & r' & Hk1 & Hdb & Hshape)];
    rewrite Hm in *; simpl in *.
  - by left.
  - rewrite Hk in Hk1. injection Hk1 as <-.
    right. exists r, r'. by repeat split.
Qed.

(** Creation either leaves the table as it is or adds one CREATED row
    under a key that was not in use. *)
Lemma create_table_cases request vd clock (db : Table) :
  (view_create request vd clock db).2 = db ∨
  ∃ k r,
    db !! k = None ∧ (view_create request vd clock db).2 = <[k := r]> db ∧
    state r = CREATED ∧ version r = 0 ∧
    (expires_at r, funded_at r, released_at r, refunded_at r, expired_at r)
    = (None, None, None, None, None) ∧
    buyer_id r = id (user request) ∧ created_at r = clock.
Proof.
  unfold view_create.
  destruct (check_permissions [BuyerOnly] request); simpl; [|by left].
  rewrite create_eq.
  destruct (vd_seller_id vd) as [[|c s]|]; simpl; [by left| |by left].
  right. eexists _, _. split; [apply next_pk_fresh|]. by repeat split.
Qed.

(** The sweep, with the fuel [perform] gives it. *)
Lemma perform_sweep cfg clock (db : Table) :
  perform cfg (OpSweep clock) db = swept clock db.
Proof.
  simpl. unfold expire_funded_escrows.
  by rewrite sweep_loop_spec by lia.
Qed.

(** ** Rows along a history *)

Section rows_along_history.
Variable cfg : Settings.

(** A relation between the old and the new content of a row that holds
    across each of the four committed transitions. *)
Variable Q : Row → Row → Prop.
Hypothesis Q_refl : ∀ r, Q r r.
Hypothesis Q_trans : ∀ r1 r2 r3, Q r1 r2 → Q r2 r3 → Q r1 r3.
Hypothesis Q_fund : ∀ now r, state r = CREATED → Q r (funded_row cfg now now r r).
Hypothesis Q_release : ∀ now r, state r = FUNDED → Q r (released_row now r).
Hypothesis Q_refund : ∀ now r, state r = FUNDED → Q r (refunded_row now r).
Hypothesis Q_expire : ∀ now r, state r = FUNDED → Q r (expired_row now r).

Lemma insert_rows (db : Table) k r r' :
  db !! k = Some r → Q r r' →
  (∀ j x, db !! j = Some x → ∃ x', <[k := r']> db !! j = Some x' ∧ Q x x') ∧
  (∀ j x', <[k := r']> db !! j = Some x' → ∃ x, db !! j = Some x ∧ Q x x').
Proof.
  intros Hk HQ. split; intros j x Hj.
  - destruct (decide (k = j)) as [<-|Hne].
    + rewrite lookup_insert_eq. exists r'. split; [done|]. congruence.
    + rewrite lookup_insert_ne by done. by exists x.
  - destruct (decide (k = j)) as [<-|Hne].
    + rewrite lookup_insert_eq in Hj. injection Hj as <-. by exists r.
    + rewrite lookup_insert_ne in Hj by done. by exists x.
Qed.

Lemma same_rows (db : Table) :
  (∀ j x, db !! j = Some x → ∃ x', db !! j = Some x' ∧ Q x x') ∧
  (∀ j x', db !! j = Some x' → ∃ x, db !! j = Some x ∧ Q x x').
Proof. split; intros j x Hj; by exists x. Qed.

(** One operation: every row that was stored is still stored, related to
    what it was; every row stored afterwards was stored before, or is a
    newly created one under a key that was free. *)
Lemma perform_rows op (db : Table) :
  (∀ k r, db !! k = Some r → ∃ r', perform cfg op db !! k = Some r' ∧ Q r r') ∧
  (∀ k r', perform cfg op db !! k = Some r' →
     (∃ r, db !! k = Some r ∧ Q r r') ∨ (db !! k = None ∧ newly_created r')).
Proof.
  assert (∀ db' : Table,
    ((∀ j x, db !! j = Some x → ∃ x', db' !! j = Some x' ∧ Q x x') ∧
     (∀ j x', db' !! j = Some x' → ∃ x, db !! j = Some x ∧ Q x x')) →
    (∀ k r, db !! k = Some r → ∃ r', db' !! k = Some r' ∧ Q r r') ∧
    (∀ k r', db' !! k = Some r' →
       (∃ r, db !! k = Some r ∧ Q r r') ∨ (db !! k = None ∧ newly_created r')))
    as Hweaken.
  { intros db' [H1 H2]. split; [done|]. intros k r' Hk. left. by apply H2. }
  assert (∀ t request k now held,
    (∀ j x, db !! j = Some x →
       ∃ x', (transition_action (model_method cfg t) request k now held db).2 !! j
             = Some x' ∧ Q x x') ∧
    (∀ j x', (transition_action (model_method cfg t) request k now held db).2 !! j
             = Some x' → ∃ x, db !! j = Some x ∧ Q x x')) as Hview.
  { intros t request k now held.
    destruct (view_table_cases cfg t request k now held db)
      as [->|(r & r' & Hk & _ & _ & _ & -> & Hshape)]; [apply same_rows|].
    apply (insert_rows db k r r' Hk).
    destruct t; destruct Hshape as [Hs ->]; auto. }
  destruct op as [request vd clock|request k now held|request k now held
                 |request k now held|clock].
  - simpl.
    destruct (create_table_cases request vd clock db)
      as [->|(k & r & Hfree & -> & Hs & Hv & Hts & _)].
    { apply Hweaken, same_rows. }
    split.
    + intros j x Hj. exists x. split; [|done].
      rewrite lookup_insert_ne; [done|]. intros <-. congruence.
    + intros j x' Hj. destruct (decide (k = j)) as [<-|Hne].
      * rewrite lookup_insert_eq in Hj. injection Hj as <-. by right.
      * rewrite lookup_insert_ne in Hj by done. left. by exists x'.
  - apply Hweaken, (Hview Fund).
  - apply Hweaken, (Hview Release).
  - apply Hweaken, (Hview Refund).
  - rewrite perform_sweep. apply Hweaken. unfold swept. split; intros j x.
    + intros Hj. rewrite lookup_fmap, Hj. simpl. eexists. split; [done|].
      destruct (eligible clock x) eqn:He; [|done].
      apply Q_expire. by apply eligible_spec in He as [? _].
    + rewrite lookup_fmap. destruct (db !! j) as [x0|]; [|discriminate].
      simpl. intros [= <-]. exists x0. split; [done|].
      destruct (eligible clock x0) eqn:He; [|done].
      apply Q_expire. by apply eligible_spec in He as [? _].
Qed.

(** A whole history keeps every stored row, related to what it was. *)
Lemma perform_all_rows ops : ∀ (db : Table) k r,
  db !! k = Some r → ∃ r', perform_all cfg ops db !! k = Some r' ∧ Q r r'.
Proof.
  induction ops as [|op ops IH]; intros db k r Hk; simpl.
  { by exists r. }
  destruct (perform_rows op db) as [H1 _].
  destruct (H1 k r Hk) as (r1 & Hk1 & HQ1).
  destruct (IH _ k r1 Hk1) as (r' & Hk' & HQ').
  exists r'. split; [done|]. by eapply Q_trans.
Qed.

End rows_along_history.

(** ** Records are kept, and only move forward *)

(** X1. Along every history of creations, fund, release and refund
    requests and sweeps, a stored record stays stored under its key; its
    buyer, seller, amount, currency and creation time never change; its
    version never decreases; and once it is in a terminal state it never
    changes at all. *)
Theorem history_keeps_records (cfg : Settings) (ops : list Operation)
    (db : Table) (k : Z) (r : Row) :
  db !! k = Some r →
  ∃ r', perform_all cfg ops db !! k = Some r' ∧
        identity r' = identity r ∧
        version r ≤ version r' ∧
        (is_terminal (state r) = true → r' = r).
Proof.
  intros Hk.
  set (Q := λ r r' : Row, identity r' = identity r ∧ version r ≤ version r' ∧
                          (is_terminal (state r) = true → r' = r)).
  assert (∀ r, Q r r) as Q_refl.
  { intros r0. split; [done|]. split; [lia|done]. }
  assert (∀ r1 r2 r3, Q r1 r2 → Q r2 r3 → Q r1 r3) as Q_trans.
  { intros r1 r2 r3 (Hi1 & Hv1 & Ht1) (Hi2 & Hv2 & Ht2).
    split; [congruence|]. split; [lia|].
    intros Ht. rewrite (Ht1 Ht) in *. by apply Ht2. }
  assert (∀ (f : Row → Row) r0,
            identity (f r0) = identity r0 → version (f r0) = version r0 + 1 →
            is_terminal (state r0) = false → Q r0 (f r0)) as Q_step.
  { intros f r0 Hi Hv Ht. split; [done|]. split; [lia|]. rewrite Ht. discriminate. }
  destruct (perform_all_rows cfg Q Q_refl Q_trans) with ops db k r
    as (r' & Hk' & HQ); try done.
  - intros now r0 Hs. apply (Q_step (funded_row cfg now now r0)); try done.
    by rewrite Hs.
  - intros now r0 Hs. apply (Q_step (released_row now)); try done. by rewrite Hs.
  - intros now r0 Hs. apply (Q_step (refunded_row now)); try done. by rewrite Hs.
  - intros now r0 Hs. apply (Q_step (expired_row now)); try done. by rewrite Hs.
  - by exists r'.
Qed.

Lemma history_keeps_records_witness :
  ∃ r', perform_all Sample.cfg
          [OpRelease Sample.buyer 2 40 ∅; OpSweep 10000; OpFund Sample.buyer 2 50 ∅]
          Sample.db !! 2 = Some r' ∧
        identity r' = identity Sample.funded ∧ 1 ≤ version r'.
Proof.
  destruct (history_keeps_records Sample.cfg
              [OpRelease Sample.buyer 2 40 ∅; OpSweep 10000; OpFund Sample.buyer 2 50 ∅]
              Sample.db 2 Sample.funded eq_refl) as (r' & H1 & H2 & H3 & _).
  by exists r'.
Defined.

(** ** The lifecycle shape is an invariant *)

Lemma lifecycle_ok_created cfg r : newly_created r → lifecycle_ok cfg r = true.
Proof.
  intros (Hs & Hv & [= He Hf Hr Hrf Hx]). unfold lifecycle_ok.
  rewrite Hs, Hv, He, Hf, Hr, Hrf, Hx. reflexivity.
Qed.

Lemma lifecycle_ok_funded cfg now clock r :
  state r = CREATED → lifecycle_ok cfg r = true →
  lifecycle_ok cfg (funded_row cfg now clock r r) = true.
Proof.
  destruct r as [b s a c st ea ca ua fa ra rfa xa v]; simpl. intros ->.
  unfold lifecycle_ok, deadline_ok; simpl.
  rewrite !andb_true_iff, !negb_true_iff, bool_decide_eq_true.
  intros (((((-> & _) & _) & ->) & ->) & ->). simpl.
  by rewrite bool_decide_eq_true_2.
Qed.

Lemma lifecycle_ok_terminal cfg now r :
  state r = FUNDED → lifecycle_ok cfg r = true →
  lifecycle_ok cfg (released_row now r) = true ∧
  lifecycle_ok cfg (refunded_row now r) = true ∧
  lifecycle_ok cfg (expired_row now r) = true.
Proof.
  destruct r as [b s a c st ea ca ua fa ra rfa xa v]; simpl. intros ->.
  unfold lifecycle_ok, deadline_ok; simpl.
  rewrite !andb_true_iff, !negb_true_iff, bool_decide_eq_true.
  intros ((((-> & Hd) & ->) & ->) & ->). simpl.
  rewrite Hd. done.
Qed.

(** What the shape says, in plain terms. *)
Lemma lifecycle_ok_reading cfg r :
  lifecycle_ok cfg r = true →
  version r = match state r with CREATED => 0 | FUNDED => 1 | _ => 2 end ∧
  (expires_at r = None ↔ state r = CREATED) ∧
  (funded_at r = None ↔ state r = CREATED) ∧
  (state r ≠ CREATED →
   ∃ f, funded_at r = Some f ∧ expires_at r = Some (f + expiration_window cfg)) ∧
  terminal_stamps r = (if is_terminal (state r) then 1 else 0)%nat ∧
  (is_set (released_at r) = bool_decide (state r = RELEASED)) ∧
  (is_set (refunded_at r) = bool_decide (state r = REFUNDED)) ∧
  (is_set (expired_at r) = bool_decide (state r = EXPIRED)).
Proof.
  destruct r as [b s a c st ea ca ua fa ra rfa xa v].
  unfold lifecycle_ok, deadline_ok, terminal_stamps; simpl.
  destruct st, fa as [f|], ea as [e|], ra as [t1|], rfa as [t2|], xa as [t3|];
    simpl; rewrite ?andb_false_r; try discriminate;
    rewrite ?andb_true_r, ?andb_true_iff, ?bool_decide_eq_true;
    (intros H; repeat split; try tauto; try done; try (intros [=]);
     try (destruct H as [-> ->]; intros _; by eexists)).
Qed.

(** X2. The shape of a record (state, version and timestamps in
    agreement, deadline equal to funding time plus the window) is kept by
    every operation of the service, and holds in every table built from
    the empty one. In such a table a record's version is 0, 1 or 2
    according to its state, [expires_at] is null exactly in CREATED, and
    a record carries the timestamp of its own terminal state and no
    other terminal timestamp. *)
Theorem lifecycle_shape_invariant (cfg : Settings) (ops : list Operation) :
  (∀ db, table_ok cfg db → table_ok cfg (perform_all cfg ops db)) ∧
  (∀ k r, perform_all cfg ops ∅ !! k = Some r →
     version r = match state r with CREATED => 0 | FUNDED => 1 | _ => 2 end ∧
     (expires_at r = None ↔ state r = CREATED) ∧
     (state r ≠ CREATED →
      ∃ f, funded_at r = Some f ∧ expires_at r = Some (f + expiration_window cfg)) ∧
     terminal_stamps r = (if is_terminal (state r) then 1 else 0)%nat ∧
     is_set (released_at r) = bool_decide (state r = RELEASED) ∧
     is_set (refunded_at r) = bool_decide (state r = REFUNDED) ∧
     is_set (expired_at r) = bool_decide (state r = EXPIRED)).
Proof.
  assert (∀ db, table_ok cfg db → table_ok cfg (perform_all cfg ops db)) as Hinv.
  { induction ops as [|op ops IH]; intros db Hok; simpl; [done|].
    apply IH. intros k r' Hk.
    destruct (perform_rows cfg
                (λ r r', lifecycle_ok cfg r = true → lifecycle_ok cfg r' = true))
      with op db as [_ H2].
    - done.
    - intros now r Hs. by apply lifecycle_ok_funded.
    - intros now r Hs Hr. by apply (lifecycle_ok_terminal cfg now r).
    - intros now r Hs Hr. by apply (lifecycle_ok_terminal cfg now r).
    - intros now r Hs Hr. by apply (lifecycle_ok_terminal cfg now r).
    - destruct (H2 k r' Hk) as [(r & Hr & HQ)|[_ Hnew]].
      + apply HQ. by apply (Hok k r).
      + by apply lifecycle_ok_created. }
  split; [exact Hinv|].
  intros k r Hk.
  assert (lifecycle_ok cfg r = true) as Hr.
  { apply (Hinv ∅ (map_Forall_empty _) k r Hk). }
  destruct (lifecycle_ok_reading cfg r Hr) as (H1 & H2 & _ & H4 & H5 & H6 & H7 & H8).
  done.
Qed.

Lemma lifecycle_shape_invariant_witness :
  ∃ r, perform_all Sample.cfg
         [OpCreate Sample.buyer (mkValidated (Some "seller-1") None 1000 None) 5;
          OpFund Sample.buyer 1 10 ∅;
          OpRefund Sample.buyer 1 20 ∅;
          OpRelease Sample.buyer 1 30 ∅] ∅ !! 1 = Some r ∧
       state r = REFUNDED ∧ version r = 2 ∧ terminal_stamps r = 1%nat.
Proof.
  eexists. split; [vm_compute; reflexivity|].
  destruct (lifecycle_shape_invariant Sample.cfg
         [OpCreate Sample.buyer (mkValidated (Some "seller-1") None 1000 None) 5;
          OpFund Sample.buyer 1 10 ∅;
          OpRefund Sample.buyer 1 20 ∅;
          OpRelease Sample.buyer 1 30 ∅]) as [_ H].
  specialize (H 1 _ ltac:(vm_compute; reflexivity)).
  destruct H as (Hv & _ & _ & Hst & _).
  split; [reflexivity|]. split; [exact Hv|exact Hst].
Defined.

(** ** Instances that agree with the table *)

(** X3. Called on an instance that agrees with its stored row, a model
    method returns normally exactly when its transition starts from the
    instance's state (fund from CREATED, release and refund from FUNDED,
    expire always); it keeps the instance's key, and the instance it
    leaves agrees with the table it leaves. *)
Theorem in_sync_transition (cfg : Settings) (t : Transition) (self : Escrow)
    (now : option Time) (clock : Time) (db : Table) :
  in_sync self db →
  ∃ res self' db',
    model_method cfg t self now clock db = (res, self', db') ∧
    (res = Ok () ↔ accepted t (state self) = true) ∧
    pk self' = pk self ∧ in_sync self' db'.
Proof.
  unfold in_sync. intros Hsync.
  assert (∀ s, state self = s → still_funded_at self self = bool_decide (s = FUNDED))
    as Hcas.
  { intros s <-. unfold still_funded_at. by rewrite (bool_decide_eq_true_2 (_ = version _)), andb_true_r. }
  destruct t; simpl.
  - rewrite fund_eq, Hsync. case_bool_decide as Hs.
    + eexists _, _, _. split; [done|]. split; [done|]. split; [done|].
      simpl. rewrite lookup_insert_eq. by destruct self.
    + eexists _, _, _. split; [done|]. split; [|done]. split; [discriminate|done].
  - rewrite release_eq, Hsync, (Hcas _ eq_refl). case_bool_decide as Hs.
    + eexists _, _, _. split; [done|]. split; [done|]. split; [done|].
      simpl. by rewrite lookup_insert_eq.
    + eexists _, _, _. split; [done|]. split; [|done]. split; [discriminate|done].
  - rewrite refund_eq, Hsync, (Hcas _ eq_refl). case_bool_decide as Hs.
    + eexists _, _, _. split; [done|]. split; [done|]. split; [done|].
      simpl. by rewrite lookup_insert_eq.
    + eexists _, _, _. split; [done|]. split; [|done]. split; [discriminate|done].
  - rewrite expire_eq, Hsync, (Hcas _ eq_refl). case_bool_decide as Hs.
    + eexists _, _, _. split; [done|]. split; [done|]. split; [done|].
      simpl. by rewrite lookup_insert_eq.
    + by eexists _, _, _.
Qed.

Lemma in_sync_transition_witness :
  ∃ res self' db',
    release (mkEscrow 2 Sample.funded) None 77 Sample.db = (res, self', db') ∧
    res = Ok () ∧ db' !! 2 = Some (row self').
Proof.
  destruct (in_sync_transition Sample.cfg Release (mkEscrow 2 Sample.funded) None 77
              Sample.db eq_refl) as (res & self' & db' & H1 & H2 & H3 & H4).
  exists res, self', db'. split; [exact H1|]. split; [by apply H2|].
  unfold in_sync in H4. by rewrite H3 in H4.
Defined.

(** ** Transitions are local *)

(** X4. A model method writes at most the row stored under its
    instance's key, and an action at most the row of the id it was given:
    every other row is as it was, and no key is added or removed. *)
Theorem transition_is_local (cfg : Settings) (t : Transition) (db : Table) :
  (∀ (self : Escrow) now clock,
     dom (model_method cfg t self now clock db).2 = dom db ∧
     ∀ j, j ≠ pk self → (model_method cfg t self now clock db).2 !! j = db !! j) ∧
  (∀ request k now held,
     dom (transition_action (model_method cfg t) request k now held db).2 = dom db ∧
     ∀ j, j ≠ k →
       (transition_action (model_method cfg t) request k now held db).2 !! j = db !! j).
Proof.
  split.
  - intros self now clock.
    destruct (method_table_cases cfg t self now clock db)
      as [->|(r & r' & Hk & -> & _)]; [done|].
    split; [by apply dom_insert_lookup_L|].
    intros j Hj. by rewrite lookup_insert_ne.
  - intros request k now held.
    destruct (view_table_cases cfg t request k now held db)
      as [->|(r & r' & Hk & _ & _ & _ & -> & _)]; [done|].
    split; [by apply dom_insert_lookup_L|].
    intros j Hj. by rewrite lookup_insert_ne.
Qed.

Lemma transition_is_local_witness :
  (view_release Sample.buyer 2 40 ∅ Sample.db).2 !! 3 = Some Sample.funded_late.
Proof.
  destruct (transition_is_local Sample.cfg Release Sample.db) as [_ H].
  destruct (H Sample.buyer 2 40 ∅) as [_ H2].
  transitivity (Sample.db !! 3); [apply (H2 3); lia | reflexivity].
Defined.

(** ** The order of the checks in an action *)

(** X5. While another transaction holds the lock of an existing row, a
    buyer's request to any of the three actions is answered 409 with
    "Resource busy, try again." and changes nothing, whether or not the
    buyer owns the escrow and whatever its state. *)
Theorem held_row_is_busy (cfg : Settings) (request : Request) (k : Z)
    (now : Time) (held : gset Z) (db : Table) (r : Row) :
  db !! k = Some r → role (user request) = "buyer" → k ∈ held →
  ∀ t, transition_action (model_method cfg t) request k now held db
       = (Ok (mkResponse (Detail "Resource busy, try again.") HTTP_409_CONFLICT), db).
Proof.
  intros Hk Hrole Hheld t. unfold transition_action.
  rewrite check_permissions_action, (bool_decide_eq_true_2 _ Hrole). simpl.
  unfold select_for_update_nowait_get, get. rewrite Hk.
  by rewrite (bool_decide_eq_true_2 _ Hheld).
Qed.

Lemma held_row_is_busy_witness :
  view_refund Sample.buyer 2 40 {[2]} Sample.db
  = (Ok (mkResponse (Detail "Resource busy, try again.") HTTP_409_CONFLICT), Sample.db).
Proof.
  assert (2 ∈ ({[2]} : gset Z)) as Hheld by (vm_compute; reflexivity).
  apply (held_row_is_busy Sample.cfg Sample.buyer 2 40 {[2]} Sample.db Sample.funded
           eq_refl eq_refl Hheld Refund).
Defined.

(** X6. A buyer's request on an existing, unlocked escrow of another
    buyer is refused with [PermissionDenied] (403) by the object-level
    check, before the model method is called; the table is unchanged. *)
Theorem foreign_escrow_is_forbidden (cfg : Settings) (request : Request) (k : Z)
    (now : Time) (held : gset Z) (db : Table) (r : Row) :
  db !! k = Some r → role (user request) = "buyer" → k ∉ held →
  buyer_id r ≠ id (user request) →
  ∀ t, transition_action (model_method cfg t) request k now held db
       = (Raise PermissionDenied, db) ∧
       client_status (Raise PermissionDenied) = HTTP_403_FORBIDDEN.
Proof.
  intros Hk Hrole Hheld Hown t. split; [|done]. unfold transition_action.
  rewrite check_permissions_action, (bool_decide_eq_true_2 _ Hrole). simpl.
  unfold select_for_update_nowait_get, get. rewrite Hk.
  rewrite (bool_decide_eq_false_2 _ Hheld).
  unfold act_on_loaded. rewrite check_object_permissions_buyer by done.
  simpl. by rewrite (bool_decide_eq_false_2 _ Hown).
Qed.

Lemma foreign_escrow_is_forbidden_witness :
  view_fund Sample.cfg (mkRequest (mkUser "buyer-2" "buyer") "POST") 1 40 ∅ Sample.db
  = (Raise PermissionDenied, Sample.db).
Proof.
  assert (1 ∉ (∅ : gset Z)) as Hfree by (vm_compute; discriminate).
  assert (buyer_id Sample.created ≠ "buyer-2") as Hother by (simpl; discriminate).
  apply (foreign_escrow_is_forbidden Sample.cfg
           (mkRequest (mkUser "buyer-2" "buyer") "POST") 1 40 ∅ Sample.db Sample.created
           eq_refl eq_refl Hfree Hother Fund).
Defined.

(** ** The sweep, whatever its fuel *)

Lemma sweep_loop_S fuel now c (db : Table) :
  sweep_loop (S fuel) now c db =
    match candidates now db with
    | [] => Some (Ok c, db)
    | e :: rest =>
        match for_each_candidate now (e :: rest) c db with
        | (Ok c', db') => sweep_loop fuel now c' db'
        | (Raise exn, db') => Some (Raise exn, db')
        end
    end.
Proof. reflexivity. Qed.

Lemma sweep_loop_more_fuel now : ∀ fuel fuel' c (db : Table) res,
  sweep_loop fuel now c db = Some res → (fuel ≤ fuel')%nat →
  sweep_loop fuel' now c db = Some res.
Proof.
  induction fuel as [|fuel IH]; intros fuel' c db res Hrun Hle; [discriminate|].
  destruct fuel' as [|fuel']; [lia|].
  rewrite sweep_loop_S in *. destruct (candidates now db) as [|e rest]; [done|].
  destruct (for_each_candidate now (e :: rest) c db) as [[c'|exn] db']; [|done].
  apply IH; [done|lia].
Qed.

Lemma sweep_returns_swept fuel clock (db : Table) res :
  expire_funded_escrows fuel clock db = Some res →
  res = (Ok (eligible_count clock db), swept clock db).
Proof.
  unfold expire_funded_escrows. intros Hrun.
  apply (sweep_loop_more_fuel clock fuel (fuel + S (eligible_count clock db)))
    in Hrun; [|lia].
  rewrite sweep_loop_spec in Hrun by lia. by injection Hrun as <-.
Qed.

(** X7. Whenever [expire_funded_escrows] returns, with whatever fuel, it
    returns normally (it never raises), its count is the number of rows
    that were eligible and its table is the one with exactly those rows
    expired: the fuel only decides whether the run is long enough. *)
Theorem sweep_result_any_fuel (fuel : nat) (clock : Time) (db : Table)
    (res : Result nat * Table) :
  expire_funded_escrows fuel clock db = Some res →
  res = (Ok (eligible_count clock db), swept clock db) ∧
  dom (swept clock db) = dom db ∧
  (∀ k r, db !! k = Some r → state r ≠ FUNDED → swept clock db !! k = Some r).
Proof.
  intros Hrun. split; [|split].
  - by apply (sweep_returns_swept fuel).
  - unfold swept. apply dom_fmap_L.
  - intros k r Hk Hs. unfold swept. rewrite lookup_fmap, Hk. simpl.
    destruct (eligible clock r) eqn:He; [|done].
    by apply eligible_spec in He as [? _].
Qed.

Lemma sweep_result_any_fuel_witness :
  ∃ db', expire_funded_escrows 2 600 Sample.db = Some (Ok 1%nat, db') ∧
         db' !! 1 = Some Sample.created.
Proof.
  destruct (sweep_result_any_fuel 2 600 Sample.db
              (Ok 1%nat, swept 600 Sample.db) ltac:(vm_compute; reflexivity))
    as (_ & _ & H).
  exists (swept 600 Sample.db). split; [vm_compute; reflexivity|].
  apply H; [reflexivity|discriminate].
Defined.

(** ** Requests by the escrow's buyer *)

(** For the buyer who owns the row, with the lock free, the action is its
    model method on the stored row, mapped to a response. *)
Lemma view_permitted (transition : ModelMethod) request k now held (db : Table) r :
  role (user request) = "buyer" → db !! k = Some r → k ∉ held →
  buyer_id r = id (user request) →
  transition_action transition request k now held db =
    match transition (mkEscrow k r) (Some now) now db with
    | (Raise (ValueError exc), _, db') =>
        (Ok (mkResponse (Detail exc) HTTP_400_BAD_REQUEST), db')
    | (Raise (DatabaseError _), _, _) =>
        (Ok (mkResponse (Detail "Resource busy, try again.") HTTP_409_CONFLICT), db)
    | (Raise e, _, _) => (Raise e, db)
    | (Ok _, escrow', db') => (Ok (mkResponse (Data escrow') HTTP_200_OK), db')
    end.
Proof.
  intros Hrole Hk Hheld Hown. unfold transition_action.
  rewrite check_permissions_action, (bool_decide_eq_true_2 _ Hrole). simpl.
  unfold select_for_update_nowait_get, get. rewrite Hk.
  rewrite (bool_decide_eq_false_2 _ Hheld).
  unfold act_on_loaded. rewrite check_object_permissions_buyer by done.
  simpl. by rewrite (bool_decide_eq_true_2 _ Hown).
Qed.

(** X8. After the sweep has expired an escrow, its buyer's release or
    refund request is answered 400 with the invalid-transition message,
    and changes nothing. *)
Theorem request_after_expiry_is_rejected (fuel : nat) (clock : Time) (db db' : Table)
    (res : Result nat) (request : Request) (k : Z) (r : Row) (now : Time)
    (held : gset Z) :
  expire_funded_escrows fuel clock db = Some (res, db') →
  db !! k = Some r → eligible clock r = true →
  role (user request) = "buyer" → buyer_id r = id (user request) → k ∉ held →
  view_release request k now held db'
  = (Ok (mkResponse (Detail "Escrow can only be released from FUNDED state.")
           HTTP_400_BAD_REQUEST), db') ∧
  view_refund request k now held db'
  = (Ok (mkResponse (Detail "Escrow can only be refunded from FUNDED state.")
           HTTP_400_BAD_REQUEST), db').
Proof.
  intros Hrun Hk He Hrole Hown Hheld.
  apply sweep_returns_swept in Hrun as [= -> ->].
  assert (swept clock db !! k = Some (expired_row clock r)) as Hk'.
  { unfold swept. rewrite lookup_fmap, Hk. simpl. by rewrite He. }
  unfold view_release, view_refund.
  rewrite !(view_permitted _ _ _ _ _ _ (expired_row clock r)) by done.
  by rewrite release_eq, refund_eq.
Qed.

Lemma request_after_expiry_is_rejected_witness :
  ∃ db', expire_funded_escrows 3 600 Sample.db = Some (Ok 1%nat, db') ∧
         view_release Sample.buyer 2 700 ∅ db'
         = (Ok (mkResponse (Detail "Escrow can only be released from FUNDED state.")
                  HTTP_400_BAD_REQUEST), db').
Proof.
  assert (2 ∉ (∅ : gset Z)) as Hfree by (vm_compute; discriminate).
  assert (expire_funded_escrows 3 600 Sample.db = Some (Ok 1%nat, swept 600 Sample.db))
    as Hrun by (vm_compute; reflexivity).
  exists (swept 600 Sample.db). split; [exact Hrun|].
  apply (request_after_expiry_is_rejected 3 600 Sample.db (swept 600 Sample.db)
           (Ok 1%nat) Sample.buyer 2 Sample.funded 700 ∅ Hrun
           eq_refl eq_refl eq_refl eq_refl Hfree).
Defined.

(** X9. An escrow funded at [now] is expired by a sweep run at [t]
    exactly when [now] plus the configured window is at most [t]: at the
    deadline itself it is expired, one microsecond earlier it is left
    FUNDED. The row the fund request stores is the funded row, whatever
    time [saved_at] its [updated_at] was given. *)
Theorem funded_escrow_expires_at_deadline (cfg : Settings) (request : Request)
    (k : Z) (now : Time) (held : gset Z) (db : Table) (r : Row)
    (fuel : nat) (t : Time) (res : Result nat) (db2 : Table) :
  db !! k = Some r → state r = CREATED →
  role (user request) = "buyer" → buyer_id r = id (user request) → k ∉ held →
  expire_funded_escrows fuel t (view_fund cfg request k now held db).2 = Some (res, db2) →
  ∃ saved_at funded,
    funded = funded_row cfg now saved_at r r ∧
    (view_fund cfg request k now held db).2 !! k = Some funded ∧
    state funded = FUNDED ∧ funded_at funded = Some now ∧
    expires_at funded = Some (now + expiration_window cfg) ∧
    db2 !! k = Some (if bool_decide (now + expiration_window cfg ≤ t)
                     then expired_row t funded else funded).
Proof.
  intros Hk Hs Hrole Hown Hheld.
  unfold view_fund. rewrite (view_permitted _ _ _ _ _ _ r) by done.
  rewrite fund_eq. simpl. rewrite (bool_decide_eq_true_2 _ Hs), Hk. simpl.
  intros Hrun. rewrite lookup_insert_eq.
  exists now, (funded_row cfg now now r r).
  split; [done|]. split; [done|]. split; [done|]. split; [done|]. split; [done|].
  apply sweep_returns_swept in Hrun as [= -> ->].
  unfold swept. rewrite lookup_fmap, lookup_insert_eq. reflexivity.
Qed.

Lemma funded_escrow_expires_at_deadline_witness :
  ∃ db2 expired,
    expire_funded_escrows 3 (100 + 86400000000)
      (view_fund Sample.cfg Sample.buyer 1 100 ∅ Sample.db).2
    = Some (Ok 3%nat, db2) ∧
    db2 !! 1 = Some expired ∧ state expired = EXPIRED ∧
    expired_at expired = Some (100 + 86400000000) ∧
    expires_at expired = Some (100 + 86400000000).
Proof.
  assert (1 ∉ (∅ : gset Z)) as Hfree by (vm_compute; discriminate).
  assert (expire_funded_escrows 3 (100 + 86400000000)
            (view_fund Sample.cfg Sample.buyer 1 100 ∅ Sample.db).2
          = Some (Ok 3%nat,
                  swept (100 + 86400000000)
                    (view_fund Sample.cfg Sample.buyer 1 100 ∅ Sample.db).2)) as Hrun
    by (vm_compute; reflexivity).
  destruct (funded_escrow_expires_at_deadline Sample.cfg Sample.buyer 1 100 ∅
              Sample.db Sample.created 3 (100 + 86400000000) (Ok 3%nat) _
              eq_refl eq_refl eq_refl eq_refl Hfree Hrun)
    as (saved_at & funded & -> & _ & _ & _ & _ & Hrow).
  eexists _, _. split; [exact Hrun|]. split; [exact Hrow|].
  repeat split.
Defined.

(** ** From creation to release *)

(** X10. A buyer creates an escrow, funds it at [now1] and releases it at
    [now2] (no lock held): the three requests are answered 201, 200 and
    200; the release leaves the record RELEASED at version 2 with
    [released_at = now2], [funded_at = now1], [expires_at = now1 + window]
    and no refund or expiry timestamp; the buyer is the requester and the
    seller and amount are those of the payload; every row stored before
    is untouched. *)
Theorem create_fund_release (cfg : Settings) (request : Request)
    (vd : ValidatedData) (seller : string) (clock now1 now2 : Time) (db : Table) :
  role (user request) = "buyer" → vd_seller_id vd = Some seller → seller ≠ "" →
  ∃ k created funded released,
    db !! k = None ∧
    view_create request vd clock db
    = (Ok (mkResponse (Data (mkEscrow k created)) HTTP_201_CREATED),
       <[k := created]> db) ∧
    view_fund cfg request k now1 ∅ (<[k := created]> db)
    = (Ok (mkResponse (Data (mkEscrow k funded)) HTTP_200_OK), <[k := funded]> db) ∧
    view_release request k now2 ∅ (<[k := funded]> db)
    = (Ok (mkResponse (Data (mkEscrow k released)) HTTP_200_OK),
       <[k := released]> db) ∧
    state funded = FUNDED ∧ version funded = 1 ∧
    state released = RELEASED ∧ version released = 2 ∧
    released_at released = Some now2 ∧ funded_at released = Some now1 ∧
    expires_at released = Some (now1 + expiration_window cfg) ∧
    refunded_at released = None ∧ expired_at released = None ∧
    buyer_id released = id (user request) ∧ seller_id released = seller ∧
    amount released = vd_amount vd.
Proof.
  intros Hrole Hseller Hne.
  pose (created :=
    (objects_create (id (user request)) seller (vd_amount vd) (vd_currency vd)
       clock db).1.(row)).
  pose (funded := funded_row cfg now1 now1 created created).
  pose (released := released_row now2 funded).
  assert (next_pk db ∉ (∅ : gset Z)) as Hfree by set_solver.
  exists (next_pk db), created, funded, released.
  split; [apply next_pk_fresh|]. split; [|split; [|split]].
  - unfold view_create, check_permissions. simpl.
    rewrite (bool_decide_eq_true_2 _ Hrole). simpl.
    rewrite create_eq, Hseller. by destruct seller.
  - unfold view_fund.
    rewrite (view_permitted _ _ _ _ _ _ created);
      [|done|apply lookup_insert_eq|done|done].
    rewrite fund_eq. simpl. rewrite lookup_insert_eq. simpl.
    by rewrite insert_insert_eq.
  - unfold view_release.
    rewrite (view_permitted _ _ _ _ _ _ funded);
      [|done|apply lookup_insert_eq|done|done].
    rewrite release_eq. simpl. rewrite lookup_insert_eq. simpl.
    by rewrite insert_insert_eq.
  - by repeat split.
Qed.

Lemma create_fund_release_witness :
  ∃ k created released,
    (view_create Sample.buyer (mkValidated (Some "seller-9") None 4200 None) 5 Sample.db).2
      !! k = Some created ∧
    state released = RELEASED ∧ version released = 2 ∧
    released_at released = Some 30 ∧ expired_at released = None ∧
    seller_id released = "seller-9" ∧ amount released = 4200.
Proof.
  destruct (create_fund_release Sample.cfg Sample.buyer
              (mkValidated (Some "seller-9") None 4200 None) "seller-9" 5 20 30
              Sample.db eq_refl eq_refl ltac:(discriminate))
    as (k & created & funded & released & _ & Hc & _ & _ & _ & _ & Hs & Hv & Hr & _
        & _ & _ & Hx & _ & Hsel & Ham).
  exists k, created, released. split; [|done].
  rewrite Hc. simpl. apply lookup_insert_eq.
Defined.

(** X11. The instance a successful [release] or [refund] returns is in
    its terminal state and agrees with the table; every further [fund],
    [release] or [refund] on it raises the invalid-transition error, and
    [expire] on it returns without effect, the table staying as it is. *)
Theorem terminal_instance_rejects (cfg : Settings) (t : Transition) (self self' : Escrow)
    (now : option Time) (clock : Time) (db db' : Table) :
  t = Release ∨ t = Refund →
  model_method cfg t self now clock db = (Ok (), self', db') →
  state self' = match t with Release => RELEASED | _ => REFUNDED end ∧
  in_sync self' db' ∧
  (∀ n c, fund cfg self' n c db'
          = (Raise (ValueError "Escrow can only be funded from CREATED state."),
             self', db')) ∧
  (∀ n c, release self' n c db'
          = (Raise (ValueError "Escrow can only be released from FUNDED state."),
             self', db')) ∧
  (∀ n c, refund self' n c db'
          = (Raise (ValueError "Escrow can only be refunded from FUNDED state."),
             self', db')) ∧
  (∀ n c, expire self' n c db' = (Ok (), self', db')).
Proof.
  intros Ht Hrun.
  assert (state self' = match t with Release => RELEASED | _ => REFUNDED end
          ∧ in_sync self' db') as [Hs Hsync].
  { destruct Ht as [-> | ->]; simpl in Hrun.
    - rewrite release_eq in Hrun. case_bool_decide; [|done].
      destruct (db !! pk self) as [r|]; [|done].
      destruct (still_funded_at self r); [|done].
      injection Hrun as <- <-. split; [done|]. unfold in_sync. simpl.
      by rewrite lookup_insert_eq.
    - rewrite refund_eq in Hrun. case_bool_decide; [|done].
      destruct (db !! pk self) as [r|]; [|done].
      destruct (still_funded_at self r); [|done].
      injection Hrun as <- <-. split; [done|]. unfold in_sync. simpl.
      by rewrite lookup_insert_eq. }
  assert (state self' ≠ CREATED ∧ state self' ≠ FUNDED) as [Hc Hf].
  { rewrite Hs. by destruct Ht as [-> | ->]. }
  split; [done|]. split; [done|].
  split; [|split; [|split]]; intros n c.
  - by rewrite fund_eq, (bool_decide_eq_false_2 _ Hc).
  - by rewrite release_eq, (bool_decide_eq_false_2 _ Hf).
  - by rewrite refund_eq, (bool_decide_eq_false_2 _ Hf).
  - by rewrite expire_eq, (bool_decide_eq_false_2 _ Hf).
Qed.

Lemma terminal_instance_rejects_witness :
  refund (mkEscrow 2 (released_row 77 Sample.funded)) None 80
    (<[2 := released_row 77 Sample.funded]> Sample.db)
  = (Raise (ValueError "Escrow can only be refunded from FUNDED state."),
     mkEscrow 2 (released_row 77 Sample.funded),
     <[2 := released_row 77 Sample.funded]> Sample.db).
Proof.
  destruct (terminal_instance_rejects Sample.cfg Release (mkEscrow 2 Sample.funded)
              (mkEscrow 2 (released_row 77 Sample.funded)) None 77 Sample.db
              (<[2 := released_row 77 Sample.funded]> Sample.db)
              (or_introl eq_refl) eq_refl) as (_ & _ & _ & _ & H & _).
  apply H.
Defined.

(** ** The sweep's query *)

#[local] Instance by_id_total : Total by_id.
Proof. intros a b. unfold by_id. lia. Qed.

#[local] Instance by_id_trans : Transitive by_id.
Proof. intros a b c. unfold by_id. lia. Qed.

(** X12. The sweep's query returns at most 100 rows, in ascending order
    of id and without repetition; each of them is stored and eligible;
    and an eligible row that is left out means the batch is full and the
    row's id is at least that of every row returned: batches take the
    lowest ids first. *)
Theorem candidates_batch (now : Time) (db : Table) :
  (length (candidates now db) ≤ batch_size)%nat ∧
  StronglySorted by_id (candidates now db) ∧
  NoDup (pk <$> candidates now db) ∧
  (∀ e, e ∈ candidates now db →
        db !! pk e = Some (row e) ∧ eligible now (row e) = true) ∧
  (∀ k r, db !! k = Some r → eligible now r = true →
          mkEscrow k r ∉ candidates now db →
          length (candidates now db) = batch_size ∧
          ∀ e, e ∈ candidates now db → pk e ≤ k).
Proof.
  split; [|split; [|split; [|split]]].
  - unfold candidates. rewrite length_take. lia.
  - unfold candidates.
    set (l := merge_sort by_id _).
    assert (StronglySorted by_id l) as Hsorted
      by (apply StronglySorted_merge_sort; apply _).
    rewrite <-(take_drop batch_size l) in Hsorted.
    by apply StronglySorted_app_1_l in Hsorted.
  - apply candidates_NoDup.
  - apply candidates_sound.
  - intros k r Hk He Hout. unfold candidates in *.
    set (l := merge_sort by_id _) in *.
    assert (StronglySorted by_id l) as Hsorted
      by (apply StronglySorted_merge_sort; apply _).
    assert (mkEscrow k r ∈ l) as Hin.
    { unfold l. rewrite merge_sort_Permutation.
      apply list_elem_of_fmap. exists (k, r). split; [done|].
      apply list_elem_of_filter. split; [simpl; by rewrite He|].
      by apply elem_of_map_to_list. }
    rewrite <-(take_drop batch_size l) in Hin, Hsorted.
    apply elem_of_app in Hin as [Hin|Hin]; [done|].
    split.
    + rewrite length_take. destruct (decide (length l ≤ batch_size)%nat) as [Hle|Hgt].
      * rewrite drop_ge in Hin by done. by apply elem_of_nil in Hin.
      * lia.
    + intros e He'.
      apply (StronglySorted_app_1_elem_of _ _ _ e (mkEscrow k r) Hsorted He' Hin).
Qed.

Lemma candidates_batch_witness :
  (length (candidates 10000%Z Sample.db) ≤ 100)%nat ∧
  mkEscrow 3 Sample.funded_late ∈ candidates 10000 Sample.db.
Proof.
  destruct (candidates_batch 10000 Sample.db) as (Hlen & _ & _ & _ & Hall).
  split; [exact Hlen|].
  destruct (decide (mkEscrow 3 Sample.funded_late ∈ candidates 10000 Sample.db))
    as [Hin|Hout]; [exact Hin|].
  destruct (Hall 3 Sample.funded_late eq_refl eq_refl Hout) as [Hfull _].
  vm_compute in Hfull. discriminate Hfull.
Defined.

(** ** Who sees what *)

Lemma get_queryset_lookup request (db : Table) k r :
  get_queryset request db !! k = Some r ↔
  db !! k = Some r ∧
  ((role (user request) = "buyer" ∧ buyer_id r = id (user request)) ∨
   (role (user request) = "seller" ∧ seller_id r = id (user request))).
Proof.
  unfold get_queryset. simpl.
  case_bool_decide as Hb; [|case_bool_decide as Hs].
  - rewrite map_lookup_filter_Some. simpl. split.
    + intros [? ?]. split; [done|]. by left.
    + intros [? [[_ ?]|[Hs' _]]]; [done|]. rewrite Hb in Hs'. discriminate.
  - rewrite map_lookup_filter_Some. simpl. split.
    + intros [? ?]. split; [done|]. by right.
    + intros [? [[Hb' _]|[_ ?]]]; [done|done].
  - rewrite lookup_empty. split; [done|]. intros [_ [[? _]|[? _]]]; done.
Qed.

(** X13. [get_queryset] shows a buyer exactly the stored escrows whose
    buyer they are and a seller exactly those whose seller they are. For
    a read request this is exactly the set of escrows the object-level
    permission admits, and whatever escrow a user is admitted to act on
    with any method is one they can see. *)
Theorem visibility (request : Request) (db : Table) (k : Z) (r : Row) :
  (get_queryset request db !! k = Some r ↔
   db !! k = Some r ∧
   ((role (user request) = "buyer" ∧ buyer_id r = id (user request)) ∨
    (role (user request) = "seller" ∧ seller_id r = id (user request)))) ∧
  (method request ∈ SAFE_METHODS →
   (get_queryset request db !! k = Some r ↔
    db !! k = Some r ∧
    has_object_permission IsEscrowParticipant request (mkEscrow k r) = true)) ∧
  (db !! k = Some r →
   has_object_permission IsEscrowParticipant request (mkEscrow k r) = true →
   get_queryset request db !! k = Some r).
Proof.
  pose proof (get_queryset_lookup request db k r) as Hvis.
  assert (has_object_permission IsEscrowParticipant request (mkEscrow k r) = true →
          (role (user request) = "buyer" ∧ buyer_id r = id (user request)) ∨
          (role (user request) = "seller" ∧ seller_id r = id (user request)))
    as Hperm.
  { simpl. case_bool_decide as Hb; [|case_bool_decide as Hs; [|done]].
    - intros ?%bool_decide_eq_true. by left.
    - case_bool_decide; [|done]. intros ?%bool_decide_eq_true. by right. }
  split; [exact Hvis|]. split.
  - intros Hsafe. rewrite Hvis. split; intros [Hk H]; (split; [done|]).
    + simpl. destruct H as [[Hb Ho]|[Hs Ho]].
      * rewrite (bool_decide_eq_true_2 _ Hb). by apply bool_decide_eq_true.
      * rewrite bool_decide_eq_false_2 by (rewrite Hs; discriminate).
        rewrite (bool_decide_eq_true_2 _ Hs), (bool_decide_eq_true_2 _ Hsafe).
        by apply bool_decide_eq_true.
    + by apply Hperm.
  - intros Hk H. apply Hvis. split; [done|]. by apply Hperm.
Qed.

Lemma visibility_witness :
  get_queryset (mkRequest (mkUser "seller-2" "seller") "GET") Sample.db !! 3
  = Some Sample.funded_late.
Proof.
  destruct (visibility (mkRequest (mkUser "seller-2" "seller") "GET") Sample.db 3
              Sample.funded_late) as (_ & _ & H).
  apply H; reflexivity.
Defined.

(** ** Header authentication *)

Lemma lower_char_idem c : lower_char (lower_char c) = lower_char c.
Proof. destruct c as [[] [] [] [] [] [] [] []]; reflexivity. Qed.

Lemma lower_idem s : lower (lower s) = lower s.
Proof. induction s as [|c s IH]; simpl; [done|]. by rewrite lower_char_idem, IH. Qed.

Lemma lower_empty s : lower s = "" ↔ s = "".
Proof. destruct s; simpl; split; intros H; done. Qed.

(** X14. [authenticate] accepts exactly when both headers are present and
    non-empty and the role header, lower-cased, is "buyer" or "seller".
    The user it returns carries the id header as it came and the
    lower-cased role, so an authenticated user's role is always one of
    the two; a missing header is refused; and the answer does not depend
    on the letter case of the role header. *)
Theorem authenticate_spec (META : gmap string string) :
  (∀ u, authenticate META = Authenticated u ↔
        ∃ r, META !! header_user_id = Some (id u) ∧ id u ≠ "" ∧
             META !! header_user_role = Some r ∧ r ≠ "" ∧
             role u = lower r ∧ (role u = "buyer" ∨ role u = "seller")) ∧
  (META !! header_user_id = None ∨ META !! header_user_role = None →
   authenticate META
   = AuthenticationFailed "Missing X-User-Id or X-User-Role header.") ∧
  (∀ r, authenticate (<[header_user_role := lower r]> META)
        = authenticate (<[header_user_role := r]> META)).
Proof.
  split; [|split].
  - intros [uid rl]. unfold authenticate. simpl.
    destruct (META !! header_user_id) as [uid'|];
      [|split; [done|by intros (? & [=] & _)]].
    destruct (META !! header_user_role) as [r|];
      [|split; [done|by intros (? & _ & _ & [=] & _)]].
    destruct (decide (uid' = "")) as [->|Hu].
    { simpl. split; [done|]. by intros (? & [= <-] & ? & _). }
    rewrite (bool_decide_eq_false_2 _ Hu). simpl.
    destruct (decide (r = "")) as [->|Hr].
    { simpl. split; [done|]. by intros (? & _ & _ & [= <-] & ? & _). }
    rewrite (bool_decide_eq_false_2 _ Hr).
    case_bool_decide as Hrole.
    + split; [done|]. intros (r' & _ & _ & [= <-] & _ & -> & Hor).
      exfalso. apply Hrole. destruct Hor as [-> | ->];
        [by apply elem_of_cons; left|].
      apply elem_of_cons; right. by apply elem_of_cons; left.
    + split.
      * intros [= <- <-]. exists r. repeat split; try done. simpl.
        apply elem_of_cons in Hrole as [?|Hrole]; [by left|].
        apply elem_of_cons in Hrole as [?|Hrole]; [by right|].
        by apply elem_of_nil in Hrole.
      * intros (r' & [= <-] & _ & [= <-] & _ & -> & _). done.
  - unfold authenticate. intros [-> | ->]; [done|].
    by destruct (META !! header_user_id).
  - intros r. unfold authenticate.
    rewrite !lookup_insert_eq, !lookup_insert_ne by done.
    destruct (META !! header_user_id) as [uid|]; [|done].
    rewrite lower_idem.
    by rewrite (bool_decide_ext (lower r = "") (r = "") (lower_empty r)).
Qed.

Lemma authenticate_spec_witness :
  authenticate (<[header_user_role := "Buyer"]> (<[header_user_id := "buyer-1"]> ∅))
  = Authenticated (mkUser "buyer-1" "buyer").
Proof.
  destruct (authenticate_spec
              (<[header_user_role := "Buyer"]> (<[header_user_id := "buyer-1"]> ∅)))
    as [H _].
  apply H. exists "Buyer". repeat split; try done. by left.
Defined.

(** ** Creation through the view *)

(** X15. A creation request by a seller is refused with [PermissionDenied]
    and creates nothing. A buyer's request with a seller id stores one
    new record under a key greater than every key in use, leaving every
    stored row as it was; the new record is listed for the buyer and for
    the named seller, and for no other buyer or seller. *)
Theorem creation_through_view (request : Request) (vd : ValidatedData)
    (clock : Time) (db : Table) :
  (role (user request) ≠ "buyer" →
   view_create request vd clock db = (Raise PermissionDenied, db)) ∧
  (∀ seller, role (user request) = "buyer" → vd_seller_id vd = Some seller →
     seller ≠ "" →
     ∃ k r,
       view_create request vd clock db
       = (Ok (mkResponse (Data (mkEscrow k r)) HTTP_201_CREATED), <[k := r]> db) ∧
       (∀ j, is_Some (db !! j) → j < k) ∧
       (∀ j x, db !! j = Some x → <[k := r]> db !! j = Some x) ∧
       size (<[k := r]> db) = S (size db) ∧
       (∀ other, get_queryset other (<[k := r]> db) !! k = Some r ↔
          (role (user other) = "buyer" ∧ id (user other) = id (user request)) ∨
          (role (user other) = "seller" ∧ id (user other) = seller))).
Proof.
  split.
  - intros Hrole. unfold view_create, check_permissions. simpl.
    by rewrite (bool_decide_eq_false_2 _ Hrole).
  - intros seller Hrole Hseller Hne.
    unfold view_create, check_permissions. simpl.
    rewrite (bool_decide_eq_true_2 _ Hrole). simpl.
    rewrite create_eq, Hseller. destruct seller as [|c s]; [done|].
    eexists _, _. split; [reflexivity|]. simpl.
    split; [|split; [|split]].
    + intros j [x Hj]. apply elem_of_map_to_list in Hj.
      assert (j ∈ (map_to_list db).*1) as Hin.
      { apply list_elem_of_fmap. by exists (j, x). }
      apply foldr_max_ge in Hin. unfold next_pk. lia.
    + intros j x Hj. rewrite lookup_insert_ne; [done|].
      intros <-. by rewrite next_pk_fresh in Hj.
    + apply map_size_insert_None, next_pk_fresh.
    + intros other.
      match goal with
      | |- context [<[_ := ?r]> db] =>
          rewrite (get_queryset_lookup other (<[next_pk db := r]> db) (next_pk db) r)
      end.
      rewrite lookup_insert_eq. simpl. split.
      * intros [_ H]. destruct H as [[? ?]|[? ?]]; [left|right]; done.
      * intros H. split; [done|]. destruct H as [[? ?]|[? ?]]; [left|right]; done.
Qed.

Lemma creation_through_view_witness :
  ∃ k r,
    view_create Sample.buyer (mkValidated (Some "seller-7") None 900 None) 8 Sample.db
    = (Ok (mkResponse (Data (mkEscrow k r)) HTTP_201_CREATED), <[k := r]> Sample.db) ∧
    get_queryset (mkRequest (mkUser "seller-7" "seller") "GET") (<[k := r]> Sample.db) !! k
    = Some r.
Proof.
  destruct (creation_through_view Sample.buyer
              (mkValidated (Some "seller-7") None 900 None) 8 Sample.db) as [_ H].
  destruct (H "seller-7" eq_refl eq_refl ltac:(discriminate))
    as (k & r & Hc & _ & _ & _ & Hvis).
  exists k, r. split; [exact Hc|]. apply Hvis. right. split; reflexivity.
Defined.

(** ** Edge behaviour of the model methods *)

(** X16. [expire] never raises. It changes the table only when the stored
    row is FUNDED at the instance's version, and then writes the expired
    row and reloads the instance; in every other case (instance not
    FUNDED, row missing, row moved on) it returns with the instance and
    the table exactly as they were. *)
Theorem expire_never_raises (self : Escrow) (now : option Time) (clock : Time)
    (db : Table) :
  ∃ self' db',
    expire self now clock db = (Ok (), self', db') ∧
    ((self' = self ∧ db' = db ∧
      ¬ (state self = FUNDED ∧
         ∃ r, db !! pk self = Some r ∧ state r = FUNDED ∧ version r = version self)) ∨
     (∃ r, db !! pk self = Some r ∧ state self = FUNDED ∧ state r = FUNDED ∧
           version r = version self ∧
           self' = mkEscrow (pk self) (expired_row (now_or now clock) r) ∧
           db' = <[pk self := expired_row (now_or now clock) r]> db)).
Proof.
  rewrite expire_eq. case_bool_decide as Hs.
  - destruct (db !! pk self) as [r|] eqn:Hr.
    + destruct (still_funded_at self r) eqn:Hc.
      * apply still_funded_at_true in Hc as [Hf Hv].
        eexists _, _. split; [done|]. right. by exists r.
      * eexists _, _. split; [done|]. left. repeat split.
        intros (_ & r' & [= <-] & Hf & Hv).
        assert (still_funded_at self r = true) by (by apply still_funded_at_true).
        congruence.
    + eexists _, _. split; [done|]. left. repeat split. by intros (_ & r' & [=] & _).
  - eexists _, _. split; [done|]. left. repeat split. by intros [? _].
Qed.

(** X17. [fund] on a CREATED instance whose row is not stored raises
    [DatabaseError] and writes nothing, but the instance has already been
    assigned: it is left FUNDED, one version up, with its funding time
    and deadline set. *)
Theorem fund_without_row (cfg : Settings) (self : Escrow) (now : option Time)
    (clock : Time) (db : Table) :
  state self = CREATED → db !! pk self = None →
  ∃ self',
    fund cfg self now clock db
    = (Raise (DatabaseError "Save with update_fields did not affect any rows."),
       self', db) ∧
    state self' = FUNDED ∧ version self' = version self + 1 ∧
    funded_at self' = Some (now_or now clock) ∧
    expires_at self' = Some (now_or now clock + expiration_window cfg).
Proof.
  intros Hs Hk. rewrite fund_eq, (bool_decide_eq_true_2 _ Hs), Hk.
  by eexists.
Qed.

Lemma fund_without_row_witness :
  ∃ self',
    fund Sample.cfg (mkEscrow 9 Sample.created) (Some 50) 51 Sample.db
    = (Raise (DatabaseError "Save with update_fields did not affect any rows."),
       self', Sample.db) ∧
    state self' = FUNDED.
Proof.
  destruct (fund_without_row Sample.cfg (mkEscrow 9 Sample.created) (Some 50) 51
              Sample.db eq_refl eq_refl) as (self' & H1 & H2 & _).
  by exists self'.
Defined.

(** [_set_state] leaves the instance in the new state; the version
    goes up by one exactly when the state changes and is otherwise kept;
    no other attribute changes; and setting the same state twice is the
    same as setting it once. *)
Lemma set_state_bumps_on_change (self : Escrow) (new_state : State) :
  state (_set_state self new_state) = new_state ∧
  version (_set_state self new_state)
  = (if bool_decide (state self = new_state) then version self else version self + 1) ∧
  set_version (version self) (set_state (state self) (_set_state self new_state))
  = row self ∧
  pk (_set_state self new_state) = pk self ∧
  _set_state (_set_state self new_state) new_state = _set_state self new_state.
Proof.
  unfold _set_state. destruct self as [k [b s a c st ea ca ua fa ra rfa xa v]]. simpl.
  case_bool_decide as Hs; simpl.
  - subst. rewrite bool_decide_eq_true_2 by done. done.
  - rewrite bool_decide_eq_true_2 by done. done.
Qed.

(** ** A permitted request *)

(** X18. For the buyer who owns a stored escrow, with its lock free, an
    action whose transition starts from the stored state is answered 200
    with the new record, and the table holds that record under the same
    key: the funded row (whatever time [saved_at] its [updated_at] was
    given), the released row or the refunded row. An action is answered
    409 only when the row's lock is held. *)
Theorem permitted_request_succeeds (cfg : Settings) (t : Transition)
    (request : Request) (k : Z) (now : Time) (held : gset Z) (db : Table) (r : Row) :
  db !! k = Some r → role (user request) = "buyer" →
  buyer_id r = id (user request) → k ∉ held →
  t ≠ Expire → accepted t (state r) = true →
  (∃ r',
     transition_action (model_method cfg t) request k now held db
     = (Ok (mkResponse (Data (mkEscrow k r')) HTTP_200_OK), <[k := r']> db) ∧
     match t with
     | Fund => ∃ saved_at, r' = funded_row cfg now saved_at r r
     | Release => r' = released_row now r
     | Refund => r' = refunded_row now r
     | Expire => r' = expired_row now r
     end) ∧
  (∀ request2 k2 held2 res db',
     transition_action (model_method cfg t) request2 k2 now held2 db = (res, db') →
     client_status res = HTTP_409_CONFLICT → k2 ∈ held2).
Proof.
  intros Hk Hrole Hown Hheld Ht Hacc. split.
  - rewrite (view_permitted _ _ _ _ _ _ r) by done.
    destruct t; simpl in *; [| | |done]; apply bool_decide_eq_true in Hacc.
    + rewrite fund_eq. simpl. rewrite (bool_decide_eq_true_2 _ Hacc), Hk.
      eexists. split; [done|]. by exists now.
    + rewrite release_eq. simpl.
      rewrite (bool_decide_eq_true_2 _ Hacc), Hk, still_funded_at_same by done.
      by eexists.
    + rewrite refund_eq. simpl.
      rewrite (bool_decide_eq_true_2 _ Hacc), Hk, still_funded_at_same by done.
      by eexists.
  - intros request2 k2 held2 res db'. unfold transition_action.
    rewrite check_permissions_action.
    case_bool_decide as Hrole2; simpl; [|by intros [= <- _]].
    unfold select_for_update_nowait_get, get.
    destruct (db !! k2) as [r2|] eqn:Hk2; [|by intros [= <- _]].
    case_bool_decide as Hheld2; [done|].
    unfold act_on_loaded. rewrite check_object_permissions_buyer by done.
    case_bool_decide as Hown2; simpl; [|by intros [= <- _]].
    destruct (model_method cfg t (mkEscrow k2 r2) (Some now) now db)
      as [[[[]|e] self'] db1] eqn:Hm; [by intros [= <- _]|].
    destruct e; try (by intros [= <- _]).
    exfalso. clear -Hm Hk2.
    destruct t; simpl in Hm.
    + rewrite fund_eq in Hm. simpl in Hm. rewrite Hk2 in Hm.
      by case_bool_decide.
    + rewrite release_eq in Hm. simpl in Hm. rewrite Hk2 in Hm.
      case_bool_decide; [|done]. by destruct (still_funded_at _ _).
    + rewrite refund_eq in Hm. simpl in Hm. rewrite Hk2 in Hm.
      case_bool_decide; [|done]. by destruct (still_funded_at _ _).
    + rewrite expire_eq in Hm. simpl in Hm. rewrite Hk2 in Hm.
      case_bool_decide; [|done]. by destruct (still_funded_at _ _).
Qed.

Lemma permitted_request_succeeds_witness :
  view_refund Sample.buyer 2 40 ∅ Sample.db
  = (Ok (mkResponse (Data (mkEscrow 2 (refunded_row 40 Sample.funded))) HTTP_200_OK),
     <[2 := refunded_row 40 Sample.funded]> Sample.db).
Proof.
  assert (2 ∉ (∅ : gset Z)) as Hfree by (vm_compute; discriminate).
  destruct (permitted_request_succeeds Sample.cfg Refund Sample.buyer 2 40 ∅ Sample.db
              Sample.funded eq_refl eq_refl eq_refl Hfree ltac:(discriminate) eq_refl)
    as [(r' & Hrun & ->) _].
  exact Hrun.
Defined.
